(** * ds-sanitize-numbervariancereducer: the column sanitizer of [main.py]

    [main.py] reads a CSV or JSON file into a pandas [DataFrame], rounds one
    numeric column with [Series.round] and writes the frame back.  The file
    embeds, in this order,
    - binary64 arithmetic ([Float64]), on the Standard Library's [spec_float];
    - Python's exceptions and a small state-and-exception monad;
    - the part of NumPy and pandas the program calls ([Numpy], [Pandas]):
      [ndarray.round], [is_numeric_dtype], [DataFrame.__getitem__],
      [DataFrame.__setitem__], [Series.round];
    - the program itself: [sanitize_number_variance] and [main], the loader
      and the writer of pandas being parameters of [main];
    - the exact decimal rounding the specification speaks of ([Exact]);
    and then states and proves the properties of the sanitizer and of the
    program around it.  The specification's ColumnNotFound is Python's
    [KeyError], its NotNumericColumn the [TypeError] the sanitizer raises,
    its UnknownFileType the [ValueError] of the file type inference. *)

From Stdlib Require Import ZArith Lia.
From Stdlib Require Import Floats.SpecFloat.
From stdpp Require Import gmap strings list.

Local Open Scope Z_scope.

(** ** Binary64 values

    A float64 is a [spec_float]: a signed zero, a signed infinity, NaN, or
    [S754_finite s m e] of value [(-1)^s * m * 2^e] with [m] normalised.
    Products and quotients are the correctly rounded (nearest, ties to even)
    IEEE 754 operations. *)
Module Float64.

Definition prec : Z := 53.
Definition emax : Z := 1024.

Definition float64 : Type := spec_float.

Definition mul : float64 -> float64 -> float64 := SFmul prec emax.
Definition div : float64 -> float64 -> float64 := SFdiv prec emax.

(** Conversion of an integer, as the C cast [(double)n]. *)
Definition of_Z (n : Z) : float64 := binary_normalize prec emax n 0 false.

(** The float64 nearest to the fraction [num / den] ([den <> 0]), with
    sign [s]: how a decimal literal is read. *)
Definition of_ratio (s : bool) (num den : Z) : float64 :=
  match num with
  | Z0 => S754_zero s
  | _ =>
      let '(q, e, l) :=
        SFdiv_core_binary prec emax (Z.abs num) 0 (Z.abs den) 0 in
      binary_round_aux prec emax s q e l
  end.

(** [of_decimal m e] is the literal [m * 10^e], e.g. [of_decimal 2675 (-3)]
    is the float64 written [2.675]. *)
Definition of_decimal (m e : Z) : float64 :=
  if 0 <=? e then of_ratio (m <? 0) (m * 10 ^ e) 1
  else of_ratio (m <? 0) m (10 ^ (- e)).

(** [num / den] rounded to the nearest integer, halves to the even one
    ([0 <= num], [0 < den]). *)
Definition half_even (num den : Z) : Z :=
  let q := num / den in
  let r := num mod den in
  match 2 * r ?= den with
  | Lt => q
  | Gt => q + 1
  | Eq => if Z.even q then q else q + 1
  end.

(** C's [rint] in the default rounding mode: the nearest integral float,
    halves to even, the sign kept. *)
Definition rint (x : float64) : float64 :=
  match x with
  | S754_finite s m e =>
      if 0 <=? e then x
      else match half_even (Zpos m) (2 ^ (- e)) with
           | Zpos n => binary_round prec emax s n 0
           | _ => S754_zero s
           end
  | _ => x
  end.

Definition int64_min : Z := - 2 ^ 63.
Definition int64_max : Z := 2 ^ 63 - 1.

(** The C cast [(long long)x]: truncation; outside the range of int64 (and
    for NaN) the x86-64 conversion yields [int64_min]. *)
Definition to_int64 (x : float64) : Z :=
  match x with
  | S754_zero _ => 0
  | S754_finite s m e =>
      let a := if 0 <=? e then Zpos m * 2 ^ e else Zpos m / 2 ^ (- e) in
      let v := if s then - a else a in
      if (int64_min <=? v) && (v <=? int64_max) then v else int64_min
  | _ => int64_min
  end.

Definition is_nan (x : float64) : bool :=
  match x with S754_nan => true | _ => false end.

Definition is_finite (x : float64) : bool :=
  match x with S754_finite _ _ _ | S754_zero _ => true | _ => false end.

End Float64.

(** ** NumPy: [ndarray.round]

    [PyArray_Round] scales by a power of ten, calls [rint] and scales back,
    all in binary64; NumPy documents it as "a fast but sometimes inexact
    algorithm", equivalent for positive [decimals] to
    [rint(a * 10**decimals) / 10**decimals].  An integer array is returned
    as it is when [decimals >= 0], and goes through binary64 and back
    otherwise. *)
Module Numpy.
Import Float64.

Definition p10 : list float64 :=
  map of_Z [1; 10; 100; 1000; 10000; 100000; 1000000; 10000000; 100000000].

(** [power_of_ten n], for [0 <= n]: a table below 9, repeated
    multiplication by [10.] from [1e9] on (inexact from [1e23], infinite
    from [1e309]). *)
Definition power_of_ten (n : Z) : float64 :=
  if n <? 9 then nth (Z.to_nat n) p10 S754_nan
  else Z.iter (n - 9) (fun ret => mul ret (of_Z 10)) (of_Z 1000000000).

Definition round_float64 (decimals : Z) (a : float64) : float64 :=
  if 0 <=? decimals then
    if decimals =? 0 then rint a
    else let f := power_of_ten decimals in div (rint (mul a f)) f
  else let f := power_of_ten (- decimals) in mul (rint (div a f)) f.

Definition round_int64 (decimals : Z) (a : Z) : Z :=
  if 0 <=? decimals then a
  else let f := power_of_ten (- decimals) in
       to_int64 (mul (rint (div (of_Z a) f)) f).

(** [decimals] is parsed as a C [int]. *)
Definition fits_c_int (decimals : Z) : bool :=
  (- 2 ^ 31 <=? decimals) && (decimals <? 2 ^ 31).

(** The message of the [OverflowError] of that parse (format [i] of
    [PyArg_ParseTuple]: the conversion to a C long first, then the range of
    int). *)
Definition c_int_overflow_msg (decimals : Z) : string :=
  if (decimals <? - 2 ^ 63) || (2 ^ 63 <=? decimals)
  then "Python int too large to convert to C long"
  else if decimals <? 0 then "signed integer is less than minimum"
  else "signed integer is greater than maximum".

End Numpy.

(** ** Python exceptions and the state-and-exception monad *)

(** The exception classes the program distinguishes; [OtherError] stands for
    every other subclass of [Exception]. *)
Inductive exn : Type :=
| KeyError (key : string)
| TypeError (msg : string)
| ValueError (msg : string)
| FileNotFoundError (filename : string)
| OverflowError (msg : string)
| OtherError (msg : string).

(** [str(e)], as the f-strings of the log messages format it. *)
Definition str_exn (e : exn) : string :=
  match e with
  | KeyError key => "'" +:+ key +:+ "'"
  | TypeError msg | ValueError msg | OverflowError msg | OtherError msg => msg
  | FileNotFoundError filename =>
      "[Errno 2] No such file or directory: '" +:+ filename +:+ "'"
  end.

Inductive level : Type := INFO | ERROR.

Definition log_record : Type := level * string.

(** A computation over a state [St] that returns a value or raises. *)
Definition M (St A : Type) : Type := St -> (exn + A) * St.

Definition ret {St A} (a : A) : M St A := fun st => (inr a, st).

Definition raise {St A} (e : exn) : M St A := fun st => (inl e, st).

Definition bind {St A B} (m : M St A) (k : A -> M St B) : M St B :=
  fun st =>
    match m st with
    | (inr a, st') => k a st'
    | (inl e, st') => (inl e, st')
    end.

(** [try: body  except ... as e: handler e]. *)
Definition try_except {St A} (body : M St A) (handler : exn -> M St A)
  : M St A :=
  fun st =>
    match body st with
    | (inl e, st') => handler e st'
    | r => r
    end.

Definition get {St} : M St St := fun st => (inr st, st).

Definition modify {St} (f : St -> St) : M St unit := fun st => (inr tt, f st).

Definition lift {St A} (r : exn + A) : M St A := fun st => (r, st).

Declare Scope py_scope.
Delimit Scope py_scope with py.
Notation "x <- m ;; k" := (bind m (fun x => k))
  (at level 100, m at next level, right associativity) : py_scope.
Notation "m ;;; k" := (bind m (fun _ => k))
  (at level 100, right associativity) : py_scope.

(** ** pandas: series, frames and the operations of the program *)
Module Pandas.
Import Float64 Numpy.

(** A column, tagged by its dtype.  A missing value is NaN in a float64
    column and [None] in an object column; int64 and bool columns have
    none. *)
Inductive Series : Type :=
| Int64Series (values : list Z)
| Float64Series (values : list float64)
| BoolSeries (values : list bool)
| ObjectSeries (values : list (option string)).

(** The columns in their order, each with its label. *)
Definition DataFrame : Type := list (string * Series).

(** One value of a column. *)
Inductive cell : Type :=
| CInt (n : Z)
| CFloat (x : float64)
| CBool (b : bool)
| CObject (o : option string).

Definition cells (s : Series) : list cell :=
  match s with
  | Int64Series l => map CInt l
  | Float64Series l => map CFloat l
  | BoolSeries l => map CBool l
  | ObjectSeries l => map CObject l
  end.

(** [pd.isna] of one value. *)
Definition isna (c : cell) : bool :=
  match c with
  | CFloat x => is_nan x
  | CObject None => true
  | _ => false
  end.

(** What [df[key]] evaluates to: a [Series] when one column carries the
    label, a [DataFrame] of the columns that carry it when several do. *)
Inductive selection : Type :=
| Column (s : Series)
| Columns (d : DataFrame).

(** [df[key]]. *)
Definition getitem (df : DataFrame) (key : string) : exn + selection :=
  match List.filter (fun col => String.eqb (fst col) key) df with
  | [] => inl (KeyError key)
  | [(_, s)] => inr (Column s)
  | d => inr (Columns d)
  end.

(** The columns labelled [key] take the series of [values] in turn. *)
Fixpoint assign (df : DataFrame) (key : string) (values : list Series)
  : DataFrame :=
  match df with
  | [] => []
  | (name, s) :: rest =>
      if String.eqb name key then
        match values with
        | v :: vs => (name, v) :: assign rest key vs
        | [] => (name, s) :: assign rest key []
        end
      else (name, s) :: assign rest key values
  end.

(** [df[key] = value], for a value on the frame's own index.  A series
    replaces the columns labelled [key] where they stand, and is appended
    under a new label; a frame (never reached by the program, which
    assigns numeric values only) is assigned column by column. *)
Definition setitem (df : DataFrame) (key : string) (value : selection)
  : DataFrame :=
  match value with
  | Column s =>
      if existsb (fun col => String.eqb (fst col) key) df
      then map (fun col =>
                  if String.eqb (fst col) key then (key, s) else col) df
      else df ++ [(key, s)]
  | Columns d => assign df key (map snd d)
  end.

(** [pd.api.types.is_numeric_dtype]: integer, floating-point and boolean
    dtypes are numeric; object is not, and neither is a frame (it has no
    dtype). *)
Definition is_numeric_dtype (arr : selection) : bool :=
  match arr with
  | Column (Int64Series _) | Column (Float64Series _)
  | Column (BoolSeries _) => true
  | Column (ObjectSeries _) => false
  | Columns _ => false
  end.

(** [Series.round(decimals)]: a block that is not numeric, or is boolean,
    is copied, and so is a column without rows; an int64 or float64 column
    with rows is rounded by NumPy, which first parses [decimals] as a C
    int. *)
Definition Series_round (s : Series) (decimals : Z) : exn + Series :=
  match s with
  | Int64Series [] | Float64Series [] => inr s
  | Int64Series l =>
      if fits_c_int decimals
      then inr (Int64Series (map (round_int64 decimals) l))
      else inl (OverflowError (c_int_overflow_msg decimals))
  | Float64Series l =>
      if fits_c_int decimals
      then inr (Float64Series (map (round_float64 decimals) l))
      else inl (OverflowError (c_int_overflow_msg decimals))
  | BoolSeries _ | ObjectSeries _ => inr s
  end.

(** The same rounding, one value at a time. *)
Definition round_cell (decimals : Z) (c : cell) : cell :=
  match c with
  | CInt n => CInt (round_int64 decimals n)
  | CFloat x => CFloat (round_float64 decimals x)
  | CBool _ | CObject _ => c
  end.

(** [DataFrame.round(decimals)] rounds block by block. *)
Fixpoint DataFrame_round (d : DataFrame) (decimals : Z) : exn + DataFrame :=
  match d with
  | [] => inr []
  | (name, s) :: rest =>
      match Series_round s decimals with
      | inl e => inl e
      | inr s' =>
          match DataFrame_round rest decimals with
          | inl e => inl e
          | inr rest' => inr ((name, s') :: rest')
          end
      end
  end.

(** [arr.round(decimals)], by the class of [arr]. *)
Definition round (arr : selection) (decimals : Z) : exn + selection :=
  match arr with
  | Column s =>
      match Series_round s decimals with
      | inl e => inl e
      | inr s' => inr (Column s')
      end
  | Columns d =>
      match DataFrame_round d decimals with
      | inl e => inl e
      | inr d' => inr (Columns d')
      end
  end.

End Pandas.

(** ** The program *)
Import Float64 Numpy Pandas.

(** [logging.error] and [logging.info] append a record to the log of the
    state. *)
Class Logging (St : Type) : Type := emit : log_record -> St -> St.

Definition logging_error {St} `{Logging St} (msg : string) : M St unit :=
  modify (emit (ERROR, msg)).

Definition logging_info {St} `{Logging St} (msg : string) : M St unit :=
  modify (emit (INFO, msg)).

(** The state [sanitize_number_variance] works on: the frame its argument
    [df] refers to, which the assignment [df[column_name] = ...] updates in
    place, and the log. *)
Record Heap : Type := { frame : DataFrame; records : list log_record }.

#[export] Instance Heap_logging : Logging Heap :=
  fun r h => {| frame := frame h; records := records h ++ [r] |}.

Definition df_getitem (key : string) : M Heap selection :=
  fun h => (getitem (frame h) key, h).

Definition df_setitem (key : string) (value : selection) : M Heap unit :=
  modify (fun h =>
            {| frame := setitem (frame h) key value; records := records h |}).

Definition not_numeric_msg (column_name : string) : string :=
  "Column '" +:+ column_name
  +:+ "' is not numeric. Please select a numeric column.".

Definition not_found_msg (column_name : string) : string :=
  "Column '" +:+ column_name
  +:+ "' not found in the dataframe. Please verify that the column name is correct.".

Definition unexpected_msg (e : exn) : string :=
  "An unexpected error occurred: " +:+ str_exn e.

Local Open Scope py_scope.

(** [sanitize_number_variance(df, column_name, precision)]; [df] is the
    frame of the state, and the value returned is that same frame. *)
Definition sanitize_number_variance (column_name : string) (precision : Z)
  : M Heap DataFrame :=
  try_except
    (col <- df_getitem column_name ;;
     (if negb (is_numeric_dtype col)
      then raise (TypeError (not_numeric_msg column_name))
      else ret tt) ;;;
     col' <- df_getitem column_name ;;
     rounded <- lift (round col' precision) ;;
     df_setitem column_name rounded ;;;
     h <- get ;;
     ret (frame h))
    (fun e =>
       match e with
       | KeyError _ => logging_error (not_found_msg column_name) ;;; raise e
       | _ => logging_error (unexpected_msg e) ;;; raise e
       end).

(** The call on a table [df] with an empty log. *)
Definition sanitize (df : DataFrame) (column_name : string) (precision : Z)
  : (exn + DataFrame) * Heap :=
  sanitize_number_variance column_name precision
    {| frame := df; records := [] |}.

(** *** The command line and the files *)

(** The namespace [parse_args] returns; [--file_type] is restricted by
    argparse to [csv] and [json]. *)
Record Args : Type := {
  input_file : string;
  column_name : string;
  precision : Z;
  output_file : option string;
  file_type : option string
}.

(** A path names at most one file, with its contents. *)
Abbreviation FS := (gmap string string).

Inductive format : Type := CSV | JSON.

(** The calls of the loader and of the writer, in the order they happen. *)
Inductive io_event : Type :=
| LoaderCall (fmt : format) (path : string)
| WriterCall (fmt : format) (path : string).

Record World : Type := {
  files : FS;
  io : list io_event;
  log : list log_record
}.

#[export] Instance World_logging : Logging World :=
  fun r w => {| files := files w; io := io w; log := log w ++ [r] |}.

(** Python's truth value of an optional string: [None] and [''] are false. *)
Definition truthy (o : option string) : bool :=
  match o with
  | Some s => negb (String.eqb s "")
  | None => false
  end.

Definition lower_ascii (a : Ascii.ascii) : Ascii.ascii :=
  let n := Ascii.nat_of_ascii a in
  if ((65 <=? n) && (n <=? 90))%nat then Ascii.ascii_of_nat (n + 32) else a.

(** [str.lower] on the letters that matter to an ASCII suffix test. *)
Fixpoint lower (s : string) : string :=
  match s with
  | EmptyString => EmptyString
  | String a rest => String (lower_ascii a) (lower rest)
  end.

(** [s.endswith(suffix)]. *)
Definition endswith (s suffix : string) : bool :=
  let n := String.length s in
  let k := String.length suffix in
  ((k <=? n)%nat && String.eqb (String.substring (n - k) k s) suffix)%bool.

Definition cannot_infer_msg : string :=
  "Could not infer file type from extension.  Please specify using --file_type.".

Definition invalid_type_msg : string :=
  "Invalid file type. Choose 'csv' or 'json'.".

(** The path [main] writes to. *)
Definition output_path (args : Args) : string :=
  if truthy (output_file args) then default (input_file args) (output_file args)
  else input_file args.

Section Main.

(** The loader and the writer of pandas are taken as they come: a loader
    sees the files and a path and returns a frame or raises; a writer
    leaves the files as it leaves them, and may raise. *)
Variables read_csv read_json : FS -> string -> exn + DataFrame.
Variables to_csv to_json : DataFrame -> string -> FS -> option exn * FS.

Definition reader (fmt : format) : FS -> string -> exn + DataFrame :=
  match fmt with CSV => read_csv | JSON => read_json end.

Definition writer (fmt : format)
  : DataFrame -> string -> FS -> option exn * FS :=
  match fmt with CSV => to_csv | JSON => to_json end.

(** [pd.read_csv(path)] and [pd.read_json(path)]. *)
Definition load (fmt : format) (path : string) : M World DataFrame :=
  fun w =>
    (reader fmt (files w) path,
     {| files := files w; io := io w ++ [LoaderCall fmt path]; log := log w |}).

(** [df.to_csv(path, index=False)] and
    [df.to_json(path, orient='records', indent=4)]. *)
Definition store (fmt : format) (df : DataFrame) (path : string)
  : M World unit :=
  fun w =>
    let '(failure, fs) := writer fmt df path (files w) in
    (match failure with Some e => inl e | None => inr tt end,
     {| files := fs; io := io w ++ [WriterCall fmt path]; log := log w |}).

(** The call [sanitize_number_variance(df, column_name, precision)] from
    [main]: the frame just loaded, the log of the process. *)
Definition call_sanitize (df : DataFrame) (column : string) (decimals : Z)
  : M World DataFrame :=
  fun w =>
    let '(r, h) :=
      sanitize_number_variance column decimals
        {| frame := df; records := log w |} in
    (r, {| files := files w; io := io w; log := records h |}).

(** The [try] block of [main]. *)
Definition main_body (args : Args) : M World unit :=
  let input_file := input_file args in
  let column_name := column_name args in
  let precision := precision args in
  let output_file :=
    if truthy (output_file args) then default input_file (output_file args)
    else input_file in
  file_type <-
    (if negb (truthy (file_type args)) then
       inferred <-
         (if endswith (lower input_file) ".csv" then ret "csv"
          else if endswith (lower input_file) ".json" then ret "json"
          else raise (ValueError cannot_infer_msg)) ;;
       logging_info ("File type inferred: " +:+ inferred) ;;;
       ret inferred
     else ret (default "" (file_type args))) ;;
  df <-
    (if String.eqb file_type "csv" then load CSV input_file
     else if String.eqb file_type "json" then load JSON input_file
     else raise (ValueError invalid_type_msg)) ;;
  df <- call_sanitize df column_name precision ;;
  (if String.eqb file_type "csv" then store CSV df output_file
   else if String.eqb file_type "json" then store JSON df output_file
   else ret tt) ;;;
  logging_info
    ("Data sanitization complete. Output written to " +:+ output_file).

(** The [except] clauses of [main], each ending in [sys.exit(1)]. *)
Definition main_handler (args : Args) (e : exn) : M World unit :=
  match e with
  | FileNotFoundError _ =>
      logging_error ("Input file not found: " +:+ input_file args)
  | ValueError _ => logging_error ("Value Error: " +:+ str_exn e)
  | TypeError _ => logging_error ("Type Error: " +:+ str_exn e)
  | KeyError _ => ret tt
  | _ => logging_error (unexpected_msg e)
  end.

(** [main()] from the namespace [args] that [parser.parse_args()] has
    returned: the exit status of the process and the world it leaves. *)
Definition main (args : Args) (w : World) : Z * World :=
  match main_body args w with
  | (inr _, w') => (0, w')
  | (inl e, w') => (1, snd (main_handler args e w'))
  end.

(** The steps of [main] once the file type is settled. *)
Definition pipeline (fmt : format) (args : Args) : M World unit :=
  df <- load fmt (input_file args) ;;
  df' <- call_sanitize df (column_name args) (precision args) ;;
  store fmt df' (output_path args) ;;;
  logging_info
    ("Data sanitization complete. Output written to "
     +:+ output_path args).

End Main.

(** The file type [main] settles on, from [--file_type] and the name of the
    input file alone. *)
Definition resolved_format (flag : option string) (input_file : string)
  : option format :=
  let file_type :=
    if truthy flag then default "" flag
    else if endswith (lower input_file) ".csv" then "csv"
    else if endswith (lower input_file) ".json" then "json"
    else "" in
  if String.eqb file_type "csv" then Some CSV
  else if String.eqb file_type "json" then Some JSON
  else None.

(** ** Exact decimal rounding

    What the specification calls [round_half_to_even(v, precision)]: the
    multiple of [10^-precision] nearest to the exact value of [v], a half
    going to the even multiple; for a float64, the result is the float64
    nearest to that decimal. *)
Module Exact.

Definition round_int (precision : Z) (n : Z) : Z :=
  if 0 <=? precision then n
  else
    let unit := 10 ^ (- precision) in
    Z.sgn n * (half_even (Z.abs n) unit * unit).

Definition round_float (precision : Z) (x : float64) : float64 :=
  match x with
  | S754_finite s m e =>
      let num :=
        Zpos m * (if 0 <=? e then 2 ^ e else 1)
        * (if 0 <=? precision then 10 ^ precision else 1) in
      let den :=
        (if 0 <=? e then 1 else 2 ^ (- e))
        * (if 0 <=? precision then 1 else 10 ^ (- precision)) in
      let n := half_even num den in
      if 0 <=? precision then of_ratio s n (10 ^ precision)
      else of_ratio s (n * 10 ^ (- precision)) 1
  | _ => x
  end.

Definition round_half_to_even (precision : Z) (v : cell) : cell :=
  match v with
  | CInt n => CInt (round_int precision n)
  | CFloat x => CFloat (round_float precision x)
  | CBool _ | CObject _ => v
  end.

End Exact.

(** The statement of the specification for one call: the call succeeds and
    every value of the column that is not missing has become its exact
    rounding. *)
Definition rounded_exactly (df : DataFrame) (column : string) (decimals : Z)
  : Prop :=
  exists s s' df' h,
    getitem df column = inr (Column s)
    /\ sanitize df column decimals = (inr df', h)
    /\ getitem df' column = inr (Column s')
    /\ forall (i : nat) v,
         cells s !! i = Some v -> isna v = false ->
         cells s' !! i = Some (Exact.round_half_to_even decimals v).

(** The positions of the missing values of a column. *)
Definition null_positions (s : Series) : list bool := map isna (cells s).

(** The outcomes of a call: the four cases above are all there are. *)
Inductive outcome (c : string) (p : Z) (h : Heap)
  : (exn + DataFrame) * Heap -> Prop :=
| Missing :
    getitem (frame h) c = inl (KeyError c) ->
    outcome c p h
      (inl (KeyError c),
       {| frame := frame h;
          records := records h ++ [(ERROR, not_found_msg c)] |})
| NotNumeric sel :
    getitem (frame h) c = inr sel ->
    is_numeric_dtype sel = false ->
    outcome c p h
      (inl (TypeError (not_numeric_msg c)),
       {| frame := frame h;
          records :=
            records h
            ++ [(ERROR, unexpected_msg (TypeError (not_numeric_msg c)))] |})
| Overflow s e :
    getitem (frame h) c = inr (Column s) ->
    is_numeric_dtype (Column s) = true ->
    Series_round s p = inl e ->
    outcome c p h
      (inl e,
       {| frame := frame h;
          records := records h ++ [(ERROR, unexpected_msg e)] |})
| Rounded s s' :
    getitem (frame h) c = inr (Column s) ->
    is_numeric_dtype (Column s) = true ->
    Series_round s p = inr s' ->
    outcome c p h
      (inr (setitem (frame h) c (Column s')),
       {| frame := setitem (frame h) c (Column s'); records := records h |}).

(** The statement of the specification on missing values for one call: the
    call succeeds and the column has its missing values at the positions
    where it had them. *)
Definition nulls_preserved (df : DataFrame) (column : string) (decimals : Z)
  : Prop :=
  exists s s' df' h,
    getitem df column = inr (Column s)
    /\ sanitize df column decimals = (inr df', h)
    /\ getitem df' column = inr (Column s')
    /\ null_positions s' = null_positions s.

(** The record [main] logs when it infers the file type. *)
Definition inference_log (args : Args) : list log_record :=
  if truthy (file_type args) then []
  else if endswith (lower (input_file args)) ".csv"
       then [(INFO, "File type inferred: csv")]
       else [(INFO, "File type inferred: json")].

(** A table, a loader and writers to run [main] on. *)
Definition sample_table : DataFrame :=
  [("name", ObjectSeries [Some "Oslo"; Some "Lima"]);
   ("latitude", Float64Series [of_decimal 5991 (-2); of_decimal (-1205) (-2)])].

Definition sample_read (fs : FS) (path : string) : exn + DataFrame :=
  match fs !! path with
  | Some _ => inr sample_table
  | None => inl (FileNotFoundError path)
  end.

Definition sample_write (content : string) (df : DataFrame) (path : string)
    (fs : FS) : option exn * FS :=
  (None, <[path := content]> fs).

Definition sample_world : World :=
  {| files := {["data.json" := "[...]"]}; io := []; log := [] |}.

(** The record [main] logs last on a run without exception. *)
Definition completion_msg (args : Args) : string :=
  "Data sanitization complete. Output written to " +:+ output_path args.

(** A writer that touches no other path than the one it is given. *)
Definition writes_only_its_path
    (w : DataFrame -> string -> FS -> option exn * FS) : Prop :=
  forall df path fs q, q <> path -> snd (w df path fs) !! q = fs !! q.

(** Two calls of the sanitizer in a row, the second on the table the first
    returns. *)
Definition sanitize_then (df : DataFrame) (c1 : string) (p1 : Z)
    (c2 : string) (p2 : Z) : exn + DataFrame :=
  match fst (sanitize df c1 p1) with
  | inr df1 => fst (sanitize df1 c2 p2)
  | inl e => inl e
  end.

(** A writer that raises before it writes. *)
Definition sample_failing_write (df : DataFrame) (path : string) (fs : FS)
  : option exn * FS :=
  (Some (OtherError "No space left on device"), fs).

(** [Series.dtype]. *)
Inductive dtype : Type := int64 | float64_ | bool_ | object_.

Definition dtype_of (s : Series) : dtype :=
  match s with
  | Int64Series _ => int64
  | Float64Series _ => float64_
  | BoolSeries _ => bool_
  | ObjectSeries _ => object_
  end.

(** What [parser.parse_args()], the first step of [main()], does with the
    command line: it returns the namespace, or it ends the process with
    [SystemExit] (argparse: status 2 on an argument it rejects, status 0
    after [-h]).  The call stands before the [try] block, so no clause of
    [main] sees that exit. *)
Inductive parse_result : Type :=
| Parsed (args : Args)
| Exited (status : Z).

(** [main()] from the command line, the parser being a parameter like the
    loader and the writer. *)
Definition main_from_argv (parse_args : list string -> parse_result)
    (read_csv read_json : FS -> string -> exn + DataFrame)
    (to_csv to_json : DataFrame -> string -> FS -> option exn * FS)
    (argv : list string) (w : World) : Z * World :=
  match parse_args argv with
  | Exited status => (status, w)
  | Parsed args => main read_csv read_json to_csv to_json args w
  end.

(** A parser to run [main_from_argv] on: it rejects an empty command line
    and takes the input file and the column from the first two words. *)
Definition sample_parse_args (argv : list string) : parse_result :=
  match argv with
  | input :: column :: _ =>
      Parsed {| input_file := input; column_name := column; precision := 0;
                output_file := None; file_type := None |}
  | _ => Exited 2
  end.

(** * Properties *)

(** ** Frames: selection and assignment *)


Lemma getitem_absent (df : DataFrame) (key : string) :
  key ∉ map fst df -> getitem df key = inl (KeyError key).
Proof.
  intros Habs. unfold getitem.
  replace (List.filter (fun col => String.eqb (fst col) key) df) with (@nil (string * Series)); [done|].
  symmetry. induction df as [|[name s] df IH]; [done|].
  simpl in *. destruct (String.eqb_spec name key) as [->|Hne].
  - exfalso. apply Habs. left.
  - apply IH. intros Hin. apply Habs. by right.
Qed.

Lemma getitem_Column_exists (df : DataFrame) (key : string) (s : Series) :
  getitem df key = inr (Column s) ->
  existsb (fun col => String.eqb (fst col) key) df = true.
Proof.
  unfold getitem. intros H.
  destruct (List.filter _ df) as [|[n s0] [|col rest]] eqn:Hf; try discriminate.
  apply existsb_exists. exists (n, s0).
  assert (Hin : In (n, s0) (List.filter (fun col => String.eqb (fst col) key) df))
    by (rewrite Hf; left; reflexivity).
  apply filter_In in Hin. exact Hin.
Qed.

Lemma filter_replace (df : DataFrame) (key : string) (s' : Series) :
  List.filter (fun col => String.eqb (fst col) key)
    (map (fun col => if String.eqb (fst col) key then (key, s') else col) df)
  = map (fun _ => (key, s'))
      (List.filter (fun col => String.eqb (fst col) key) df).
Proof.
  induction df as [|[name s] df IH]; [done|].
  simpl. destruct (String.eqb_spec name key) as [->|Hne]; simpl.
  - rewrite String.eqb_refl. simpl. by rewrite IH.
  - destruct (String.eqb_spec name key); [done|]. exact IH.
Qed.

Lemma getitem_setitem (df : DataFrame) (key : string) (s s' : Series) :
  getitem df key = inr (Column s) ->
  getitem (setitem df key (Column s')) key = inr (Column s').
Proof.
  intros H. unfold setitem. rewrite (getitem_Column_exists _ _ _ H).
  unfold getitem in *. rewrite filter_replace.
  destruct (List.filter _ df) as [|[n s0] [|col rest]]; try discriminate.
  reflexivity.
Qed.

Lemma setitem_labels (df : DataFrame) (key : string) (s s' : Series) :
  getitem df key = inr (Column s) ->
  map fst (setitem df key (Column s')) = map fst df.
Proof.
  intros H. unfold setitem. rewrite (getitem_Column_exists _ _ _ H).
  clear H. induction df as [|[name s0] df IH]; [done|].
  simpl. rewrite IH. destruct (String.eqb_spec name key) as [->|Hne]; done.
Qed.

Lemma setitem_lookup (df : DataFrame) (key : string) (s s' : Series) (i : nat) :
  getitem df key = inr (Column s) ->
  setitem df key (Column s') !! i
  = (fun col => if String.eqb (fst col) key then (key, s') else col) <$> df !! i.
Proof.
  intros H. unfold setitem. rewrite (getitem_Column_exists _ _ _ H).
  apply list_lookup_fmap.
Qed.

Lemma getitem_Column_lookup (df : DataFrame) (key : string) (s : Series)
    (i : nat) (s0 : Series) :
  getitem df key = inr (Column s) -> df !! i = Some (key, s0) -> s0 = s.
Proof.
  unfold getitem. intros H Hi.
  assert (Hin : In (key, s0) (List.filter (fun col => String.eqb (fst col) key) df)).
  { apply filter_In. split.
    - apply list_elem_of_In. eapply list_elem_of_lookup_2. exact Hi.
    - simpl. apply String.eqb_refl. }
  destruct (List.filter _ df) as [|[n s1] [|col rest]]; try discriminate.
  destruct Hin as [Heq|[]]. congruence.
Qed.

(** ** The sanitizer, case by case *)

Lemma getitem_raises (df : DataFrame) (key : string) (e : exn) :
  getitem df key = inl e -> e = KeyError key.
Proof.
  unfold getitem.
  destruct (List.filter _ df) as [|[n s] [|col rest]]; congruence.
Qed.

Lemma Series_round_raises (s : Series) (decimals : Z) (e : exn) :
  Series_round s decimals = inl e ->
  e = OverflowError (c_int_overflow_msg decimals).
Proof.
  destruct s as [[|]|[|]| |]; simpl; destruct (fits_c_int decimals);
    congruence.
Qed.

Lemma sanitize_missing (c : string) (p : Z) (h : Heap) :
  getitem (frame h) c = inl (KeyError c) ->
  sanitize_number_variance c p h
  = (inl (KeyError c),
     {| frame := frame h;
        records := records h ++ [(ERROR, not_found_msg c)] |}).
Proof.
  intros H. unfold sanitize_number_variance, try_except, bind, df_getitem.
  rewrite H. reflexivity.
Qed.

Lemma sanitize_not_numeric (c : string) (p : Z) (h : Heap) (sel : selection) :
  getitem (frame h) c = inr sel ->
  is_numeric_dtype sel = false ->
  sanitize_number_variance c p h
  = (inl (TypeError (not_numeric_msg c)),
     {| frame := frame h;
        records :=
          records h ++ [(ERROR, unexpected_msg (TypeError (not_numeric_msg c)))] |}).
Proof.
  intros H Hnum. unfold sanitize_number_variance, try_except, bind, df_getitem.
  rewrite H, Hnum. reflexivity.
Qed.

Lemma sanitize_rounded (c : string) (p : Z) (h : Heap) (s s' : Series) :
  getitem (frame h) c = inr (Column s) ->
  is_numeric_dtype (Column s) = true ->
  Series_round s p = inr s' ->
  sanitize_number_variance c p h
  = (inr (setitem (frame h) c (Column s')),
     {| frame := setitem (frame h) c (Column s'); records := records h |}).
Proof.
  intros H Hnum Hr.
  unfold sanitize_number_variance, try_except, bind, df_getitem, lift, round.
  rewrite H, Hnum. simpl. rewrite H, Hr. reflexivity.
Qed.

Lemma sanitize_overflow (c : string) (p : Z) (h : Heap) (s : Series) (e : exn) :
  getitem (frame h) c = inr (Column s) ->
  is_numeric_dtype (Column s) = true ->
  Series_round s p = inl e ->
  sanitize_number_variance c p h
  = (inl e,
     {| frame := frame h; records := records h ++ [(ERROR, unexpected_msg e)] |}).
Proof.
  intros H Hnum Hr. pose proof (Series_round_raises _ _ _ Hr) as ->.
  unfold sanitize_number_variance, try_except, bind, df_getitem, lift, round.
  rewrite H, Hnum. simpl. rewrite H, Hr. reflexivity.
Qed.

Lemma sanitize_outcome (c : string) (p : Z) (h : Heap) :
  outcome c p h (sanitize_number_variance c p h).
Proof.
  destruct (getitem (frame h) c) as [e|sel] eqn:Hg.
  - pose proof (getitem_raises _ _ _ Hg) as ->.
    rewrite (sanitize_missing c p h Hg). by constructor.
  - destruct (is_numeric_dtype sel) eqn:Hnum.
    + destruct sel as [s|d]; [|discriminate].
      destruct (Series_round s p) as [e|s'] eqn:Hr.
      * rewrite (sanitize_overflow c p h s e Hg Hnum Hr). by econstructor.
      * rewrite (sanitize_rounded c p h s s' Hg Hnum Hr). by econstructor.
    + rewrite (sanitize_not_numeric c p h sel Hg Hnum). by econstructor.
Qed.

(** ** Failures of the sanitizer *)

(** C4: a column name that is not a label of the table makes
    [sanitize_number_variance] raise [KeyError] carrying that name
    (the specification's ColumnNotFound); the message logged names it too,
    and the table is left exactly as it was. *)
Theorem C4_missing_column_raises_KeyError (h : Heap) (c : string) (p : Z) :
  c ∉ map fst (frame h) ->
  sanitize_number_variance c p h
  = (inl (KeyError c),
     {| frame := frame h;
        records := records h ++ [(ERROR, not_found_msg c)] |}).
Proof.
  intros Habs. apply sanitize_missing. by apply getitem_absent.
Qed.

Lemma C4_missing_column_witness :
  let h := {| frame := [("price", Float64Series [of_decimal 35 (-1)]);
                        ("qty", Int64Series [3]);
                        ("name", ObjectSeries [Some "bolt"])];
              records := [] |} in
  ("weight" ∉ map fst (frame h))
  /\ sanitize_number_variance "weight" 2 h
     = (inl (KeyError "weight"),
        {| frame := frame h;
           records := [(ERROR, not_found_msg "weight")] |}).
Proof.
  intros h.
  assert (Habs : "weight" ∉ map fst (frame h)).
  { simpl. intros Hin.
    repeat (apply elem_of_cons in Hin as [Hin|Hin]; [discriminate|]).
    by apply elem_of_nil in Hin. }
  split; [exact Habs|].
  exact (C4_missing_column_raises_KeyError h "weight" 2 Habs).
Defined.

(** C3, as the code has it: a column of object dtype (strings, numeric
    looking or not) makes [sanitize_number_variance] raise [TypeError]
    (the specification's NotNumericColumn) naming the column; no value is
    converted and the table is left exactly as it was. *)
Theorem C3_object_column_raises_TypeError
    (h : Heap) (c : string) (p : Z) (l : list (option string)) :
  getitem (frame h) c = inr (Column (ObjectSeries l)) ->
  sanitize_number_variance c p h
  = (inl (TypeError (not_numeric_msg c)),
     {| frame := frame h;
        records :=
          records h
          ++ [(ERROR, unexpected_msg (TypeError (not_numeric_msg c)))] |}).
Proof.
  intros Hg. by apply (sanitize_not_numeric c p h _ Hg).
Qed.

Lemma C3_object_column_witness :
  let h := {| frame := [("name", ObjectSeries [Some "1.50"; Some "2.25"]);
                        ("qty", Int64Series [3; 4])];
              records := [] |} in
  getitem (frame h) "name"
  = inr (Column (ObjectSeries [Some "1.50"; Some "2.25"]))
  /\ sanitize_number_variance "name" 1 h
     = (inl (TypeError (not_numeric_msg "name")),
        {| frame := frame h;
           records :=
             [(ERROR, unexpected_msg (TypeError (not_numeric_msg "name")))] |}).
Proof.
  intros h. split; [reflexivity|].
  exact (C3_object_column_raises_TypeError h "name" 1
           [Some "1.50"; Some "2.25"] eq_refl).
Defined.

(** C3 as the specification words it fails on a boolean column: its
    element type is neither integer nor floating-point, and yet the call
    raises nothing. *)
Lemma C3_boolean_column_is_not_rejected :
  let df := [("name", ObjectSeries [Some "bolt"; Some "nut"]);
             ("active", BoolSeries [true; false])] in
  getitem df "active" = inr (Column (BoolSeries [true; false]))
  /\ ~ (exists msg, fst (sanitize df "active" 0) = inl (TypeError msg))
  /\ fst (sanitize df "active" 0) = inr df.
Proof.
  intros df. split; [reflexivity|]. split; [|reflexivity].
  intros [msg Hmsg]. vm_compute in Hmsg. discriminate.
Qed.

(** C9: a boolean column passes [is_numeric_dtype], so the call raises
    nothing, whatever the precision: the column is handed to
    [Series.round] and its result assigned back. *)
Theorem C9_boolean_column_is_accepted
    (h : Heap) (c : string) (p : Z) (l : list bool) :
  getitem (frame h) c = inr (Column (BoolSeries l)) ->
  is_numeric_dtype (Column (BoolSeries l)) = true
  /\ exists rounded,
       round (Column (BoolSeries l)) p = inr rounded
       /\ sanitize_number_variance c p h
          = (inr (setitem (frame h) c rounded),
             {| frame := setitem (frame h) c rounded;
                records := records h |}).
Proof.
  intros Hg. split; [reflexivity|].
  exists (Column (BoolSeries l)). split; [reflexivity|].
  by apply (sanitize_rounded c p h (BoolSeries l)).
Qed.

Lemma C9_boolean_column_witness :
  let h := {| frame := [("active", BoolSeries [true; false]);
                        ("qty", Int64Series [3; 4])];
              records := [] |} in
  getitem (frame h) "active" = inr (Column (BoolSeries [true; false]))
  /\ is_numeric_dtype (Column (BoolSeries [true; false])) = true
  /\ exists rounded,
       round (Column (BoolSeries [true; false])) 2 = inr rounded
       /\ sanitize_number_variance "active" 2 h
          = (inr (setitem (frame h) "active" rounded),
             {| frame := setitem (frame h) "active" rounded;
                records := records h |}).
Proof.
  intros h. split; [reflexivity|].
  exact (C9_boolean_column_is_accepted h "active" 2 [true; false] eq_refl).
Defined.

(** ** What a successful call changes *)

Lemma Series_round_cells (s s' : Series) (p : Z) :
  Series_round s p = inr s' -> cells s' = map (round_cell p) (cells s).
Proof.
  destruct s as [[|n l]|[|x l]|l|l]; simpl; try destruct (fits_c_int p);
    intros [= <-]; simpl; rewrite ?map_map; reflexivity.
Qed.

Lemma Series_round_numeric (s s' : Series) (p : Z) :
  Series_round s p = inr s' ->
  is_numeric_dtype (Column s') = is_numeric_dtype (Column s).
Proof.
  destruct s as [[|]|[|]| |]; simpl; try destruct (fits_c_int p);
    by intros [= <-].
Qed.

Lemma Series_round_fits (s : Series) (p : Z) :
  fits_c_int p = true -> exists s', Series_round s p = inr s'.
Proof.
  intros Hp. destruct s as [[|]|[|]| |]; simpl; rewrite ?Hp; eauto.
Qed.

(** C2: whatever the call does, the labels of the table and their order
    are kept, every column under another label than [c] is the very same
    column, and every column keeps its number of rows; the table returned
    is the table of the state.  The column under [c] keeps its rows in
    their order: when the call returns, its value at each position is the
    rounding of the value that was at that position, and when the call
    raises it is the very same column. *)
Theorem C2_other_columns_and_rows_untouched (h : Heap) (c : string) (p : Z) :
  let h' := snd (sanitize_number_variance c p h) in
  map fst (frame h') = map fst (frame h)
  /\ (forall (i : nat) name s,
        frame h !! i = Some (name, s) -> name <> c ->
        frame h' !! i = Some (name, s))
  /\ (forall (i : nat) name s,
        frame h !! i = Some (name, s) ->
        exists s', frame h' !! i = Some (name, s')
                   /\ length (cells s') = length (cells s))
  /\ (forall df', fst (sanitize_number_variance c p h) = inr df' ->
                  df' = frame h')
  /\ (forall (i : nat) s,
        frame h !! i = Some (c, s) ->
        match fst (sanitize_number_variance c p h) with
        | inr _ =>
            exists s',
              frame h' !! i = Some (c, s')
              /\ cells s' = map (round_cell p) (cells s)
              /\ forall (j : nat) v,
                   cells s !! j = Some v ->
                   cells s' !! j = Some (round_cell p v)
        | inl _ => frame h' !! i = Some (c, s)
        end).
Proof.
  destruct (sanitize_outcome c p h) as [Hg|sel Hg Hn|s e Hg Hn Hr|s s' Hg Hn Hr];
    cbn [snd fst frame].
  1-3: repeat split; try done; intros i name s0 Hi; by exists s0.
  split; [by apply (setitem_labels _ _ s)|].
  split; [|split; [|split]].
  - intros i name s0 Hi Hne. rewrite (setitem_lookup _ _ s _ _ Hg), Hi. simpl.
    by destruct (String.eqb_spec name c).
  - intros i name s0 Hi. rewrite (setitem_lookup _ _ s _ _ Hg), Hi. simpl.
    destruct (String.eqb_spec name c) as [->|Hne].
    + exists s'. split; [done|].
      rewrite (getitem_Column_lookup _ _ _ _ _ Hg Hi).
      rewrite (Series_round_cells _ _ _ Hr). apply length_map.
    + by exists s0.
  - by intros df' [= <-].
  - intros i s0 Hi.
    pose proof (getitem_Column_lookup _ _ _ _ _ Hg Hi) as ->.
    exists s'. rewrite (setitem_lookup _ _ s _ _ Hg), Hi. cbn.
    rewrite String.eqb_refl. split; [done|].
    pose proof (Series_round_cells _ _ _ Hr) as Hc. split; [exact Hc|].
    intros j v Hj. by rewrite Hc, list_lookup_fmap, Hj.
Qed.

(** C1, as the code has it: on a column that passes [is_numeric_dtype],
    with a precision that fits a C int, the call succeeds and leaves under
    the label the column of NumPy's roundings, [round_cell], of the values
    it held, position by position; an integer value is its own exact
    rounding when the precision is not negative. *)
Theorem C1_sanitize_applies_library_round
    (df : DataFrame) (c : string) (p : Z) (s : Series) :
  getitem df c = inr (Column s) ->
  is_numeric_dtype (Column s) = true ->
  fits_c_int p = true ->
  exists s',
    sanitize df c p
    = (inr (setitem df c (Column s')),
       {| frame := setitem df c (Column s'); records := [] |})
    /\ getitem (setitem df c (Column s')) c = inr (Column s')
    /\ cells s' = map (round_cell p) (cells s)
    /\ (forall n, 0 <= p ->
          round_cell p (CInt n) = Exact.round_half_to_even p (CInt n)).
Proof.
  intros Hg Hn Hp. destruct (Series_round_fits s p Hp) as [s' Hr].
  exists s'. split; [|split; [|split]].
  - exact (sanitize_rounded c p {| frame := df; records := [] |} s s' Hg Hn Hr).
  - by apply (getitem_setitem _ _ s).
  - by apply Series_round_cells.
  - intros n H0. simpl. unfold round_int64, Exact.round_int.
    destruct (0 <=? p) eqn:Hle; [reflexivity|lia].
Qed.

Lemma C1_library_round_witness :
  let df := [("item", ObjectSeries [Some "bolt"; Some "nut"; Some "cog"]);
             ("price", Float64Series [of_decimal 1005 (-3);
                                      of_decimal 2675 (-3);
                                      of_decimal 35 (-1)])] in
  getitem df "price"
  = inr (Column (Float64Series [of_decimal 1005 (-3); of_decimal 2675 (-3);
                                of_decimal 35 (-1)]))
  /\ fits_c_int 1 = true
  /\ exists s',
       sanitize df "price" 1
       = (inr (setitem df "price" (Column s')),
          {| frame := setitem df "price" (Column s'); records := [] |})
       /\ getitem (setitem df "price" (Column s')) "price" = inr (Column s')
       /\ cells s'
          = map (round_cell 1)
              (cells (Float64Series [of_decimal 1005 (-3);
                                     of_decimal 2675 (-3);
                                     of_decimal 35 (-1)]))
       /\ (forall n, 0 <= 1 ->
             round_cell 1 (CInt n) = Exact.round_half_to_even 1 (CInt n)).
Proof.
  intros df. split; [reflexivity|]. split; [reflexivity|].
  exact (C1_sanitize_applies_library_round df "price" 1 _
           eq_refl eq_refl eq_refl).
Defined.

(** C1 as the specification words it fails: [56294995342131.5] has one
    decimal digit, so its exact rounding to three decimals is the value
    itself, but the call leaves [56294995342131.51] (the float64 nearest to
    it) in its place. *)
Lemma C1_exact_rounding_fails :
  let df := [("amount", Float64Series [of_decimal 562949953421315 (-1)])] in
  fst (sanitize df "amount" 3)
  = inr [("amount", Float64Series [of_decimal 5629499534213151 (-2)])]
  /\ Exact.round_half_to_even 3 (CFloat (of_decimal 562949953421315 (-1)))
     = CFloat (of_decimal 562949953421315 (-1))
  /\ ~ rounded_exactly df "amount" 3.
Proof.
  intros df. split; [by vm_compute|]. split; [by vm_compute|].
  intros (s & s' & df' & h & Hg & Hs & Hg' & Hall).
  vm_compute in Hg. injection Hg as <-.
  vm_compute in Hs. injection Hs as <- _.
  vm_compute in Hg'. injection Hg' as <-.
  specialize (Hall 0%nat _ eq_refl eq_refl).
  vm_compute in Hall. discriminate.
Qed.

(** ** Missing values *)

Lemma shr_1_nonneg (mrs : shr_record) :
  0 <= shr_m mrs -> 0 <= shr_m (shr_1 mrs).
Proof. destruct mrs as [[|[q|q|]|[q|q|]] r s]; simpl; lia. Qed.

Lemma iter_shr_1_nonneg (n : positive) (mrs : shr_record) :
  0 <= shr_m mrs -> 0 <= shr_m (SpecFloat.iter_pos shr_1 n mrs).
Proof.
  revert mrs. induction n as [n IH|n IH|]; intros mrs H; simpl.
  - apply IH, IH. by apply shr_1_nonneg.
  - by apply IH, IH.
  - by apply shr_1_nonneg.
Qed.

Lemma shr_fexp_nonneg (m e : Z) (l : location) :
  0 <= m -> 0 <= shr_m (fst (shr_fexp prec emax m e l)).
Proof.
  intros H. unfold shr_fexp, shr.
  assert (H0 : 0 <= shr_m (shr_record_of_loc m l))
    by (destruct l as [|[]]; exact H).
  destruct (fexp prec emax (Zdigits2 m + e) - e); simpl; try exact H0.
  by apply iter_shr_1_nonneg.
Qed.

Lemma round_nearest_even_nonneg (m : Z) (l : location) :
  0 <= m -> 0 <= round_nearest_even m l.
Proof.
  intros H. destruct l as [|[]]; simpl; try lia.
  destruct (Z.even m); lia.
Qed.

Lemma binary_round_aux_not_nan (s : bool) (m e : Z) (l : location) :
  0 <= m -> is_nan (binary_round_aux prec emax s m e l) = false.
Proof.
  intros H. unfold binary_round_aux.
  pose proof (shr_fexp_nonneg m e l H) as H1.
  destruct (shr_fexp prec emax m e l) as [mrs' e'].
  pose proof (shr_fexp_nonneg
                (round_nearest_even (shr_m mrs') (loc_of_shr_record mrs'))
                e' loc_Exact
                (round_nearest_even_nonneg _ _ H1)) as H2.
  destruct (shr_fexp prec emax _ e' loc_Exact) as [mrs'' e''].
  simpl in H2. destruct (shr_m mrs''); [done| |lia].
  by destruct (e'' <=? emax - prec).
Qed.

Lemma mul_not_nan (x : float64) (s : bool) (m : positive) (e : Z) :
  is_nan x = false -> is_nan (mul x (S754_finite s m e)) = false.
Proof.
  destruct x as [sx|sx| |sx mx ex]; try done.
  intros _. apply binary_round_aux_not_nan. lia.
Qed.

Lemma div_not_nan (x : float64) (s : bool) (m : positive) (e : Z) :
  is_nan x = false -> is_nan (div x (S754_finite s m e)) = false.
Proof.
  destruct x as [sx|sx| |sx mx ex]; try done.
  intros _. unfold div, SFdiv, SFdiv_core_binary.
  set (m' := match _ - _ - _ with Z0 => _ | Zpos _ => _ | Zneg _ => _ end).
  assert (Hm' : 0 <= m').
  { subst m'. destruct (_ - _ - _); try lia.
    rewrite Z.shiftl_mul_pow2 by lia. lia. }
  pose proof (Z.div_pos m' (Zpos m) Hm' ltac:(lia)) as Hq.
  unfold Z.div in Hq. destruct (Z.div_eucl m' (Zpos m)) as [q r].
  by apply binary_round_aux_not_nan.
Qed.

Lemma rint_not_nan (x : float64) : is_nan (rint x) = is_nan x.
Proof.
  destruct x as [sx|sx| |sx mx ex]; try done. simpl.
  destruct (0 <=? ex); [done|].
  destruct (half_even _ _); try done.
  unfold binary_round. destruct (shl_align _ _ _) as [mz ez].
  apply binary_round_aux_not_nan. lia.
Qed.

Lemma mul_nan (f : float64) : mul S754_nan f = S754_nan.
Proof. by destruct f. Qed.

Lemma div_nan (f : float64) : div S754_nan f = S754_nan.
Proof. by destruct f. Qed.

(** Up to [10^308] the power of ten is a finite float64. *)
Lemma power_of_ten_finite (n : Z) :
  0 <= n <= 308 -> exists s m e, power_of_ten n = S754_finite s m e.
Proof.
  intros Hn.
  assert (Hall : forallb
            (fun k => match power_of_ten (Z.of_nat k) with
                      | S754_finite _ _ _ => true
                      | _ => false
                      end) (seq 0 309) = true) by (vm_compute; reflexivity).
  rewrite forallb_forall in Hall.
  specialize (Hall (Z.to_nat n)). rewrite Z2Nat.id in Hall by lia.
  destruct (power_of_ten n); try (discriminate Hall; fail); eauto.
  all: exfalso; cut (false = true); [discriminate|apply Hall; apply in_seq; lia].
Qed.

(** NaN goes through the rounding of NumPy at every precision. *)
Lemma round_float64_nan (p : Z) : round_float64 p S754_nan = S754_nan.
Proof.
  unfold round_float64.
  destruct (0 <=? p); [destruct (p =? 0)|]; simpl;
    by rewrite ?mul_nan, ?div_nan.
Qed.

(** No other value becomes NaN while the power of ten is finite. *)
Lemma round_float64_not_nan (p : Z) (x : float64) :
  -308 <= p <= 308 -> is_nan x = false -> is_nan (round_float64 p x) = false.
Proof.
  intros Hp Hx. unfold round_float64.
  destruct (Z.leb_spec 0 p).
  - destruct (Z.eqb_spec p 0); [by rewrite rint_not_nan|].
    destruct (power_of_ten_finite p) as (s & m & e & ->); [lia|].
    apply div_not_nan. rewrite rint_not_nan. by apply mul_not_nan.
  - destruct (power_of_ten_finite (- p)) as (s & m & e & ->); [lia|].
    apply mul_not_nan. rewrite rint_not_nan. by apply div_not_nan.
Qed.

Lemma round_cell_null (p : Z) (v : cell) :
  isna v = true -> round_cell p v = v.
Proof.
  destruct v as [n|x|b|o]; try done. destruct x; try done.
  intros _. simpl. by rewrite round_float64_nan.
Qed.

Lemma round_cell_isna (p : Z) (v : cell) :
  -308 <= p <= 308 -> isna (round_cell p v) = isna v.
Proof.
  intros Hp. destruct v as [n|x|b|o]; try done. simpl.
  destruct (is_nan x) eqn:Hx.
  - destruct x; try done. by rewrite round_float64_nan.
  - by apply round_float64_not_nan.
Qed.

(** C6, as the code has it: on a numeric column, with a precision that
    fits a C int, the column keeps its length and every missing value (NaN)
    stays, unchanged, where it was; as long as the precision lies between
    -308 and 308 no other value becomes missing, so that the positions of
    the missing values are the same before and after. *)
Theorem C6_missing_values_stay_in_place
    (df : DataFrame) (c : string) (p : Z) (s : Series) :
  getitem df c = inr (Column s) ->
  is_numeric_dtype (Column s) = true ->
  fits_c_int p = true ->
  exists s',
    fst (sanitize df c p) = inr (setitem df c (Column s'))
    /\ getitem (setitem df c (Column s')) c = inr (Column s')
    /\ length (cells s') = length (cells s)
    /\ (forall (i : nat) v,
          cells s !! i = Some v -> isna v = true -> cells s' !! i = Some v)
    /\ (-308 <= p <= 308 -> null_positions s' = null_positions s).
Proof.
  intros Hg Hn Hp. destruct (Series_round_fits s p Hp) as [s' Hr].
  pose proof (Series_round_cells _ _ _ Hr) as Hc.
  exists s'. split; [|split; [|split; [|split]]].
  - unfold sanitize.
    by rewrite (sanitize_rounded c p {| frame := df; records := [] |} s s').
  - by apply (getitem_setitem _ _ s).
  - rewrite Hc. apply length_map.
  - intros i v Hi Hv. rewrite Hc, list_lookup_fmap, Hi. simpl.
    by rewrite round_cell_null.
  - intros H308. unfold null_positions. rewrite Hc, map_map.
    apply map_ext. intros v. by apply round_cell_isna.
Qed.

Lemma C6_missing_values_witness :
  let s := Float64Series [of_decimal 1234567 (-5); S754_nan;
                          of_decimal (-81) (-1)] in
  let df := [("city", ObjectSeries [Some "Oslo"; None; Some "Lima"]);
             ("latitude", s)] in
  getitem df "latitude" = inr (Column s)
  /\ fits_c_int 2 = true
  /\ exists s',
       fst (sanitize df "latitude" 2)
       = inr (setitem df "latitude" (Column s'))
       /\ getitem (setitem df "latitude" (Column s')) "latitude"
          = inr (Column s')
       /\ length (cells s') = length (cells s)
       /\ (forall (i : nat) v,
             cells s !! i = Some v -> isna v = true -> cells s' !! i = Some v)
       /\ (-308 <= 2 <= 308 -> null_positions s' = null_positions s).
Proof.
  intros s df. split; [reflexivity|]. split; [reflexivity|].
  exact (C6_missing_values_stay_in_place df "latitude" 2 s
           eq_refl eq_refl eq_refl).
Defined.

(** C6 as the specification words it fails at a precision beyond 308:
    [10^400] is infinite in binary64, [1.5 * inf] is infinite and
    [inf / inf] is NaN, so a value that was there comes out missing. *)
Lemma C6_value_becomes_missing_at_precision_400 :
  let s := Float64Series [of_decimal 15 (-1); S754_nan] in
  let df := [("reading", s)] in
  fst (sanitize df "reading" 400)
  = inr [("reading", Float64Series [S754_nan; S754_nan])]
  /\ null_positions s = [false; true]
  /\ null_positions (Float64Series [S754_nan; S754_nan]) = [true; true]
  /\ ~ nulls_preserved df "reading" 400.
Proof.
  intros s df. split; [by vm_compute|]. split; [by vm_compute|].
  split; [by vm_compute|].
  intros (s0 & s' & df' & h & Hg & Hs & Hg' & Hnull).
  vm_compute in Hg. injection Hg as <-.
  vm_compute in Hs. injection Hs as <- _.
  vm_compute in Hg'. injection Hg' as <-.
  vm_compute in Hnull. discriminate.
Qed.

(** ** The program around the sanitizer *)

Lemma sanitize_log_irrelevant (c : string) (p : Z) (df : DataFrame)
    (l : list log_record) :
  sanitize_number_variance c p {| frame := df; records := l |}
  = (fst (sanitize df c p),
     {| frame := frame (snd (sanitize df c p));
        records := l ++ records (snd (sanitize df c p)) |}).
Proof.
  unfold sanitize.
  destruct (sanitize_outcome c p {| frame := df; records := [] |})
    as [Hg|sel Hg Hn|s e Hg Hn Hr|s s' Hg Hn Hr]; cbn [fst snd frame records].
  - by rewrite (sanitize_missing c p {| frame := df; records := l |} Hg).
  - by rewrite (sanitize_not_numeric c p {| frame := df; records := l |} sel Hg Hn).
  - by rewrite (sanitize_overflow c p {| frame := df; records := l |} s e Hg Hn Hr).
  - rewrite (sanitize_rounded c p {| frame := df; records := l |} s s' Hg Hn Hr).
    cbn [frame records]. by rewrite app_nil_r.
Qed.

Section MainFacts.

Variables read_csv read_json : FS -> string -> exn + DataFrame.
Variables to_csv to_json : DataFrame -> string -> FS -> option exn * FS.

Lemma call_sanitize_eq (df : DataFrame) (c : string) (p : Z) (w : World) :
  call_sanitize df c p w
  = (fst (sanitize df c p),
     {| files := files w; io := io w;
        log := log w ++ records (snd (sanitize df c p)) |}).
Proof.
  unfold call_sanitize. by rewrite sanitize_log_irrelevant.
Qed.

Lemma main_body_resolved (args : Args) (w : World) (fmt : format) :
  resolved_format (file_type args) (input_file args) = Some fmt ->
  main_body read_csv read_json to_csv to_json args w
  = pipeline read_csv read_json to_csv to_json fmt args
      {| files := files w; io := io w;
         log := log w ++ inference_log args |}.
Proof.
  unfold resolved_format, main_body, pipeline, inference_log, output_path.
  destruct w as [fs evs lg]. cbn [files io log].
  destruct (truthy (file_type args)) eqn:Ht; cbn [negb].
  - unfold bind at 1, ret. rewrite app_nil_r.
    destruct (String.eqb (default "" (file_type args)) "csv") eqn:E1.
    + by intros [= <-].
    + destruct (String.eqb (default "" (file_type args)) "json") eqn:E2;
        [by intros [= <-]|done].
  - destruct (endswith (lower (input_file args)) ".csv") eqn:E1.
    + by intros [= <-].
    + destruct (endswith (lower (input_file args)) ".json") eqn:E2;
        [by intros [= <-]|done].
Qed.

Lemma main_body_unresolved (args : Args) (w : World) :
  resolved_format (file_type args) (input_file args) = None ->
  exists msg,
    main_body read_csv read_json to_csv to_json args w
    = (inl (ValueError msg), w).
Proof.
  unfold resolved_format, main_body.
  destruct (truthy (file_type args)) eqn:Ht; cbn [negb].
  - unfold bind at 1, ret.
    destruct (String.eqb (default "" (file_type args)) "csv") eqn:E1;
      [done|].
    destruct (String.eqb (default "" (file_type args)) "json") eqn:E2;
      [done|].
    intros _. by exists invalid_type_msg.
  - destruct (endswith (lower (input_file args)) ".csv") eqn:E1; [done|].
    destruct (endswith (lower (input_file args)) ".json") eqn:E2; [done|].
    intros _. by exists cannot_infer_msg.
Qed.

(** C7: when the sanitizer raises on the table just loaded, [main]
    exits with status 1, the files are what they were and the only call
    made is the one of the loader: the writer is not reached.  When the
    loader, the sanitizer and the writer all return, [main] exits with
    status 0 after exactly one call of the writer. *)
Theorem C7_failed_sanitizer_never_reaches_writer
    (args : Args) (w : World) (fmt : format) (df : DataFrame) :
  resolved_format (file_type args) (input_file args) = Some fmt ->
  reader read_csv read_json fmt (files w) (input_file args) = inr df ->
  let run := main read_csv read_json to_csv to_json args w in
  (forall e,
      fst (sanitize df (column_name args) (precision args)) = inl e ->
      fst run = 1
      /\ files (snd run) = files w
      /\ io (snd run) = io w ++ [LoaderCall fmt (input_file args)])
  /\ (forall df' fs',
        fst (sanitize df (column_name args) (precision args)) = inr df' ->
        writer to_csv to_json fmt df' (output_path args) (files w)
        = (None, fs') ->
        fst run = 0
        /\ files (snd run) = fs'
        /\ io (snd run)
           = io w ++ [LoaderCall fmt (input_file args);
                      WriterCall fmt (output_path args)]).
Proof.
  intros Hfmt Hread run. subst run. unfold main.
  rewrite (main_body_resolved args w fmt Hfmt).
  unfold pipeline, bind, load. cbn [files io log]. rewrite Hread.
  rewrite call_sanitize_eq. cbn [files io log].
  split.
  - intros e He. rewrite He. cbn [fst snd].
    destruct e; cbn; done.
  - intros df' fs' Hs Hw. rewrite Hs. unfold store. cbn [files io log].
    rewrite Hw. cbn. by rewrite <- app_assoc.
Qed.

(** C8: without [--file_type], an input name that ends neither in
    [.csv] nor in [.json] (letter case apart) makes [main] exit with
    status 1 with the ValueError "Could not infer file type" logged (the
    specification's UnknownFileType), no call of the loader or of the
    writer having been made and no file touched. *)
Theorem C8_unknown_extension_exits_1 (args : Args) (w : World) :
  truthy (file_type args) = false ->
  endswith (lower (input_file args)) ".csv" = false ->
  endswith (lower (input_file args)) ".json" = false ->
  main read_csv read_json to_csv to_json args w
  = (1, {| files := files w; io := io w;
           log := log w ++ [(ERROR, "Value Error: " +:+ cannot_infer_msg)] |}).
Proof.
  intros Ht Hc Hj. unfold main, main_body. rewrite Ht, Hc, Hj. reflexivity.
Qed.

(** C10: the writer [main] calls is the one of the file type settled
    from [--file_type] and the name of the input file; the output path
    only says where it writes.  Whenever the loader and the sanitizer
    return, that writer is called, once, on the output path and with the
    sanitized table, and the files are what it leaves.  A run that exits
    with status 0 has called that writer once, on the output path, with the
    sanitized table. *)
Theorem C10_output_format_follows_input_type (args : Args) (w : World) :
  let run := main read_csv read_json to_csv to_json args w in
  (forall f path,
      WriterCall f path ∈ io (snd run) ->
      WriterCall f path ∈ io w
      \/ (resolved_format (file_type args) (input_file args) = Some f
          /\ path = output_path args))
  /\ (fst run = 0 ->
      exists fmt df df',
        resolved_format (file_type args) (input_file args) = Some fmt
        /\ reader read_csv read_json fmt (files w) (input_file args) = inr df
        /\ fst (sanitize df (column_name args) (precision args)) = inr df'
        /\ writer to_csv to_json fmt df' (output_path args) (files w)
           = (None, files (snd run))
        /\ io (snd run)
           = io w ++ [LoaderCall fmt (input_file args);
                      WriterCall fmt (output_path args)])
  /\ (forall fmt df df',
        resolved_format (file_type args) (input_file args) = Some fmt ->
        reader read_csv read_json fmt (files w) (input_file args) = inr df ->
        fst (sanitize df (column_name args) (precision args)) = inr df' ->
        WriterCall fmt (output_path args) ∈ io (snd run)
        /\ io (snd run)
           = io w ++ [LoaderCall fmt (input_file args);
                      WriterCall fmt (output_path args)]
        /\ files (snd run)
           = snd (writer to_csv to_json fmt df' (output_path args)
                    (files w))).
Proof.
  intros run. subst run. apply and_assoc. split.
  { unfold main.
    destruct (resolved_format (file_type args) (input_file args))
      as [fmt|] eqn:Hfmt.
    - rewrite (main_body_resolved args w fmt Hfmt).
      unfold pipeline, bind, load. cbn [files io log].
      destruct (reader read_csv read_json fmt (files w) (input_file args))
        as [e|df] eqn:Hread.
      { split; [|by cbn].
        intros f path. destruct e; cbn; rewrite elem_of_app;
          (intros [H|H]; [by left|]); apply list_elem_of_singleton in H;
          discriminate. }
      rewrite call_sanitize_eq. cbn [files io log].
      destruct (fst (sanitize df (column_name args) (precision args)))
        as [e|df'] eqn:Hs.
      { split; [|by cbn].
        intros f path. destruct e; cbn; rewrite elem_of_app;
          (intros [H|H]; [by left|]); apply list_elem_of_singleton in H;
          discriminate. }
      unfold store. cbn [files io log].
      destruct (writer to_csv to_json fmt df' (output_path args) (files w))
        as [[e|] fs'] eqn:Hw.
      + split; [|by cbn].
        intros f path. destruct e; cbn; rewrite <- app_assoc, elem_of_app;
          (intros [H|H]; [by left|]); right;
          apply elem_of_cons in H as [H|H]; try discriminate;
          apply list_elem_of_singleton in H; by injection H as -> ->.
      + cbn. split.
        * intros f path. rewrite <- app_assoc, elem_of_app.
          intros [H|H]; [by left|]. right.
          apply elem_of_cons in H as [H|H]; try discriminate.
          apply list_elem_of_singleton in H. by injection H as -> ->.
        * intros _. exists fmt, df, df'. by rewrite <- app_assoc.
    - destruct (main_body_unresolved args w Hfmt) as [msg ->]. cbn.
      split; [by left|done]. }
  intros fmt df df' Hfmt Hread Hs. unfold main.
  rewrite (main_body_resolved args w fmt Hfmt).
  unfold pipeline, bind, load. cbn [files io log]. rewrite Hread.
  rewrite call_sanitize_eq. cbn [files io log]. rewrite Hs.
  unfold store. cbn [files io log].
  destruct (writer to_csv to_json fmt df' (output_path args) (files w))
    as [[e|] fs]; [destruct e|]; cbn; rewrite <- app_assoc;
    (split; [|done]); rewrite elem_of_app; right;
    apply elem_of_cons; right; by apply list_elem_of_singleton.
Qed.

End MainFacts.

(** ** Rounding twice *)

Lemma setitem_setitem (df : DataFrame) (key : string) (s s' s'' : Series) :
  getitem df key = inr (Column s) ->
  setitem (setitem df key (Column s')) key (Column s'')
  = setitem df key (Column s'').
Proof.
  intros Hg.
  pose proof (getitem_setitem df key s s' Hg) as Hg'.
  unfold setitem at 1. rewrite (getitem_Column_exists _ _ _ Hg').
  unfold setitem. rewrite (getitem_Column_exists _ _ _ Hg).
  rewrite map_map. apply map_ext. intros [name s0]. cbn [fst].
  destruct (String.eqb_spec name key) as [->|Hne]; cbn [fst].
  - by rewrite String.eqb_refl.
  - by destruct (String.eqb_spec name key).
Qed.

(** A second call at the same precision rounds the rounded values once
    more: it changes nothing exactly when NumPy's rounding is idempotent on
    the values of the column. *)
Lemma sanitize_twice (df : DataFrame) (c : string) (p : Z) (s s' : Series) :
  getitem df c = inr (Column s) ->
  is_numeric_dtype (Column s) = true ->
  Series_round s p = inr s' ->
  exists s'',
    fst (sanitize (setitem df c (Column s')) c p)
    = inr (setitem df c (Column s''))
    /\ cells s'' = map (round_cell p) (map (round_cell p) (cells s)).
Proof.
  intros Hg Hn Hr.
  assert (Hp : exists s'', Series_round s' p = inr s'').
  { destruct s as [[|]|[|]| |]; simpl in Hr;
      try destruct (fits_c_int p) eqn:Hp;
      try discriminate; injection Hr as <-; simpl; rewrite ?Hp; eauto. }
  destruct Hp as [s'' Hr']. exists s''. split.
  - unfold sanitize.
    rewrite (sanitize_rounded c p
               {| frame := setitem df c (Column s'); records := [] |} s' s'').
    + cbn [fst frame]. by rewrite (setitem_setitem df c s).
    + by apply (getitem_setitem _ _ s).
    + by rewrite (Series_round_numeric _ _ _ Hr).
    + exact Hr'.
  - by rewrite (Series_round_cells _ _ _ Hr'), (Series_round_cells _ _ _ Hr).
Qed.

Lemma round_cell_twice_int_nonneg (p n : Z) :
  0 <= p -> round_cell p (round_cell p (CInt n)) = round_cell p (CInt n).
Proof.
  intros Hp. simpl. unfold round_int64.
  destruct (0 <=? p) eqn:Hle; [reflexivity|lia].
Qed.

Lemma round_cell_twice_bool (p : Z) (b : bool) :
  round_cell p (round_cell p (CBool b)) = round_cell p (CBool b).
Proof. reflexivity. Qed.

(** ** The model on the values of the specification's scenarios *)

Example rint_halves_to_even :
  map rint [of_decimal 5 (-1); of_decimal 15 (-1); of_decimal 25 (-1);
            of_decimal (-35) (-1)]
  = [S754_zero false; of_Z 2; of_Z 2; of_Z (-4)].
Proof. by vm_compute. Qed.

Example round_prices_to_one_decimal :
  map (round_float64 1)
    [of_decimal 1005 (-3); of_decimal 2675 (-3); of_decimal 35 (-1)]
  = [of_decimal 10 (-1); of_decimal 27 (-1); of_decimal 35 (-1)].
Proof. by vm_compute. Qed.

Example round_latitudes_to_two_decimals :
  map (round_float64 2) [of_decimal 1234567 (-5); of_decimal (-81) (-1)]
  = [of_decimal 1235 (-2); of_decimal (-81) (-1)].
Proof. by vm_compute. Qed.

(** [2.675] is stored as [2.67499999999999982...]: its exact rounding to two
    decimals is [2.67], NumPy's is [2.68]. *)
Example round_2_675_to_two_decimals :
  round_float64 2 (of_decimal 2675 (-3)) = of_decimal 268 (-2)
  /\ Exact.round_float 2 (of_decimal 2675 (-3)) = of_decimal 267 (-2).
Proof. by vm_compute. Qed.

Example round_int64_to_tens :
  map (round_int64 (-1)) [15; 25; 35; -15; 4] = [20; 20; 40; -20; 0].
Proof. by vm_compute. Qed.

Example power_of_ten_overflows :
  is_finite (power_of_ten 308) = true
  /\ power_of_ten 309 = S754_infinity false.
Proof. by vm_compute. Qed.

(** ** The program on a sample run *)

Lemma C7_failed_sanitizer_witness :
  let args := {| input_file := "data.json"; column_name := "name";
                 precision := 2; output_file := Some "out.json";
                 file_type := None |} in
  let run := main sample_read sample_read (sample_write "csv")
               (sample_write "json") args sample_world in
  resolved_format (file_type args) (input_file args) = Some JSON
  /\ reader sample_read sample_read JSON (files sample_world) "data.json"
     = inr sample_table
  /\ (forall e,
        fst (sanitize sample_table "name" 2) = inl e ->
        fst run = 1
        /\ files (snd run) = files sample_world
        /\ io (snd run) = io sample_world ++ [LoaderCall JSON "data.json"])
  /\ (forall df' fs',
        fst (sanitize sample_table "name" 2) = inr df' ->
        writer (sample_write "csv") (sample_write "json") JSON df'
          (output_path args) (files sample_world) = (None, fs') ->
        fst run = 0
        /\ files (snd run) = fs'
        /\ io (snd run)
           = io sample_world ++ [LoaderCall JSON "data.json";
                                 WriterCall JSON (output_path args)]).
Proof.
  intros args run.
  assert (Hfmt : resolved_format (file_type args) (input_file args)
                 = Some JSON) by (vm_compute; reflexivity).
  assert (Hread : reader sample_read sample_read JSON (files sample_world)
                    (input_file args) = inr sample_table)
    by (vm_compute; reflexivity).
  split; [exact Hfmt|]. split; [exact Hread|].
  exact (C7_failed_sanitizer_never_reaches_writer sample_read sample_read
           (sample_write "csv") (sample_write "json")
           args sample_world JSON sample_table Hfmt Hread).
Defined.

Lemma C8_unknown_extension_witness :
  let args := {| input_file := "data"; column_name := "latitude";
                 precision := 2; output_file := None; file_type := None |} in
  truthy (file_type args) = false
  /\ endswith (lower (input_file args)) ".csv" = false
  /\ endswith (lower (input_file args)) ".json" = false
  /\ main sample_read sample_read (sample_write "csv") (sample_write "json")
       args sample_world
     = (1, {| files := files sample_world; io := io sample_world;
              log := log sample_world
                     ++ [(ERROR, "Value Error: " +:+ cannot_infer_msg)] |}).
Proof.
  intros args. repeat (split; [reflexivity|]).
  exact (C8_unknown_extension_exits_1 sample_read sample_read
           (sample_write "csv") (sample_write "json") args sample_world
           eq_refl eq_refl eq_refl).
Defined.

(** The run of the specification's second scenario, with the output under
    another extension than the input: the CSV writer is the one called. *)
Example csv_input_json_output_path :
  let args := {| input_file := "data.CSV"; column_name := "latitude";
                 precision := 1; output_file := Some "out.json";
                 file_type := None |} in
  let w := {| files := {["data.CSV" := "name,latitude"]}; io := [];
              log := [] |} in
  let run := main sample_read sample_read (sample_write "csv")
               (sample_write "json") args w in
  fst run = 0
  /\ io (snd run) = [LoaderCall CSV "data.CSV"; WriterCall CSV "out.json"]
  /\ files (snd run) !! "out.json" = Some "csv".
Proof. by vm_compute. Qed.

(** * Further properties of the sanitizer *)

Lemma getitem_member (df : DataFrame) (key : string) (sel : selection) :
  getitem df key = inr sel -> key ∈ map fst df.
Proof.
  unfold getitem. intros H.
  assert (Hne : exists col, In col (List.filter (fun col => String.eqb (fst col) key) df)).
  { destruct (List.filter _ df) as [|col rest]; [discriminate|].
    exists col. by left. }
  destruct Hne as [[name s] Hin]. apply filter_In in Hin as [Hin Heq].
  cbn [fst] in Heq. apply String.eqb_eq in Heq as ->.
  apply list_elem_of_In, in_map_iff. by exists (key, s).
Qed.

Lemma getitem_not_member (df : DataFrame) (key : string) (e : exn) :
  getitem df key = inl e -> key ∉ map fst df.
Proof.
  unfold getitem. intros H Hin.
  apply list_elem_of_In, in_map_iff in Hin as [[name s] [Heq Hin]].
  cbn [fst] in Heq. subst name.
  assert (Hf : In (key, s) (List.filter (fun col => String.eqb (fst col) key) df)).
  { apply filter_In. split; [done|]. apply String.eqb_refl. }
  destruct (List.filter _ df) as [|[n s0] [|col rest]]; [done|discriminate..].
Qed.

Lemma Series_round_overflow (s : Series) (p : Z) (e : exn) :
  Series_round s p = inl e -> fits_c_int p = false /\ cells s <> [].
Proof.
  destruct s as [[|]|[|]| |]; simpl; destruct (fits_c_int p);
    intros H; try discriminate H; done.
Qed.

Lemma setitem_same (df : DataFrame) (key : string) (s : Series) :
  getitem df key = inr (Column s) -> setitem df key (Column s) = df.
Proof.
  intros Hg. apply list_eq. intros i.
  rewrite (setitem_lookup _ _ s _ _ Hg).
  destruct (df !! i) as [[name s0]|] eqn:Hi; [|done]. cbn.
  destruct (String.eqb_spec name key) as [->|Hne]; [|done].
  by rewrite <- (getitem_Column_lookup _ _ _ _ _ Hg Hi).
Qed.

(** X1: a call that raises leaves the table as it was and appends exactly
    one ERROR record to the log; a call that returns appends nothing, and
    the table it returns is the table of the state. *)
Theorem X1_failure_is_atomic_and_logged_once (c : string) (p : Z) (h : Heap) :
  match sanitize_number_variance c p h with
  | (inl e, h') =>
      frame h' = frame h
      /\ exists msg, records h' = records h ++ [(ERROR, msg)]
  | (inr df', h') => records h' = records h /\ frame h' = df'
  end.
Proof.
  destruct (sanitize_outcome c p h) as [Hg|sel Hg Hn|s e Hg Hn Hr|s s' Hg Hn Hr];
    cbn [frame records]; eauto.
Qed.

(** X2: the sanitizer raises nothing but a [KeyError] carrying the column
    name, when no column has that label; the [TypeError] of the numeric
    check, when the label is there; and the [OverflowError] of the parse of
    the precision in NumPy, when the label is there, the column has rows
    and the precision does not fit a C int. *)
Theorem X2_sanitizer_raises_three_exceptions
    (df : DataFrame) (c : string) (p : Z) (e : exn) :
  fst (sanitize df c p) = inl e ->
  (e = KeyError c /\ c ∉ map fst df)
  \/ (e = TypeError (not_numeric_msg c) /\ c ∈ map fst df)
  \/ (exists msg s,
        e = OverflowError msg
        /\ getitem df c = inr (Column s)
        /\ cells s <> []
        /\ fits_c_int p = false).
Proof.
  unfold sanitize.
  destruct (sanitize_outcome c p {| frame := df; records := [] |})
    as [Hg|sel Hg Hn|s e' Hg Hn Hr|s s' Hg Hn Hr];
    cbn [fst frame] in *; intros [= <-].
  - left. split; [done|]. by apply (getitem_not_member _ _ _ Hg).
  - right. left. split; [done|]. by apply (getitem_member _ _ _ Hg).
  - right. right. exists (c_int_overflow_msg p), s.
    split; [by apply (Series_round_raises _ _ _ Hr)|].
    split; [done|]. by destruct (Series_round_overflow _ _ _ Hr).
Qed.

Lemma X2_sanitizer_raises_witness :
  let df := [("name", ObjectSeries [Some "bolt"]); ("qty", Int64Series [3])] in
  fst (sanitize df "qty" (2 ^ 31))
  = inl (OverflowError "signed integer is greater than maximum")
  /\ ((OverflowError "signed integer is greater than maximum" = KeyError "qty"
       /\ "qty" ∉ map fst df)
      \/ (OverflowError "signed integer is greater than maximum"
          = TypeError (not_numeric_msg "qty")
          /\ "qty" ∈ map fst df)
      \/ (exists msg s,
            OverflowError "signed integer is greater than maximum"
            = OverflowError msg
            /\ getitem df "qty" = inr (Column s)
            /\ cells s <> []
            /\ fits_c_int (2 ^ 31) = false)).
Proof.
  intros df. split; [reflexivity|].
  exact (X2_sanitizer_raises_three_exceptions df "qty" (2 ^ 31) _ eq_refl).
Defined.

(** X3: the call returns a table exactly when the name labels one column,
    of integer, floating-point or boolean dtype, and the precision fits a
    C int, or the column is boolean, or the column has no rows. *)
Theorem X3_sanitizer_returns_iff (df : DataFrame) (c : string) (p : Z) :
  (exists df', fst (sanitize df c p) = inr df')
  <-> exists s,
        getitem df c = inr (Column s)
        /\ is_numeric_dtype (Column s) = true
        /\ (fits_c_int p = true \/ (exists l, s = BoolSeries l)
            \/ cells s = []).
Proof.
  unfold sanitize. split.
  - intros [df' Hs].
    destruct (sanitize_outcome c p {| frame := df; records := [] |})
      as [Hg|sel Hg Hn|s e' Hg Hn Hr|s s' Hg Hn Hr];
      cbn [fst frame] in *; try discriminate.
    exists s. split; [done|]. split; [done|].
    destruct s as [[|]|[|]|l|l]; simpl in Hr;
      try (right; right; reflexivity);
      try (right; left; eauto; fail);
      try (destruct (fits_c_int p); try discriminate; by left).
  - intros (s & Hg & Hn & Hp).
    assert (Hr : exists s', Series_round s p = inr s').
    { destruct Hp as [Hp|[[l ->]|He]];
        [by apply Series_round_fits|by exists (BoolSeries l)|].
      exists s. by destruct s as [[|]|[|]|[|]|[|]]. }
    destruct Hr as [s' Hr].
    rewrite (sanitize_rounded c p {| frame := df; records := [] |} s s' Hg Hn Hr).
    eauto.
Qed.

(** X4: rounding changes nothing in an integer column when the precision
    is not negative, nor in a boolean column: the call returns the table as
    it was and logs nothing. *)
Theorem X4_integer_and_boolean_columns_unchanged
    (df : DataFrame) (c : string) (p : Z) (s : Series) :
  getitem df c = inr (Column s) ->
  (exists l, s = Int64Series l /\ 0 <= p < 2 ^ 31) \/ (exists l, s = BoolSeries l) ->
  sanitize df c p = (inr df, {| frame := df; records := [] |}).
Proof.
  intros Hg Hs.
  assert (Hr : Series_round s p = inr s).
  { destruct Hs as [(l & -> & Hp)|[l ->]]; [|done].
    destruct l as [|n0 l]; [done|]. cbn [Series_round].
    assert (fits_c_int p = true) as -> by (unfold fits_c_int; lia).
    f_equal. f_equal. rewrite <- (map_id (n0 :: l)) at 2. apply map_ext.
    intros n. unfold round_int64. destruct (0 <=? p) eqn:Hle; [done|lia]. }
  assert (Hn : is_numeric_dtype (Column s) = true)
    by (destruct Hs as [(l & -> & _)|[l ->]]; done).
  unfold sanitize.
  rewrite (sanitize_rounded c p {| frame := df; records := [] |} s s Hg Hn Hr).
  cbn [frame records]. by rewrite (setitem_same _ _ _ Hg).
Qed.

Lemma X4_integer_column_witness :
  let df := [("qty", Int64Series [15; 25]); ("name", ObjectSeries [None; None])] in
  getitem df "qty" = inr (Column (Int64Series [15; 25]))
  /\ ((exists l, Int64Series [15; 25] = Int64Series l /\ 0 <= 2 < 2 ^ 31)
      \/ (exists l, Int64Series [15; 25] = BoolSeries l))
  /\ sanitize df "qty" 2 = (inr df, {| frame := df; records := [] |}).
Proof.
  intros df.
  assert (H : (exists l, Int64Series [15; 25] = Int64Series l /\ 0 <= 2 < 2 ^ 31)
              \/ (exists l, Int64Series [15; 25] = BoolSeries l)).
  { left. exists [15; 25]. split; [reflexivity|lia]. }
  split; [reflexivity|]. split; [exact H|].
  exact (X4_integer_and_boolean_columns_unchanged df "qty" 2 _ eq_refl H).
Defined.

(** X5: on a numeric column without rows the call returns the table as it
    was, at every precision that fits a C int. *)
Theorem X5_column_without_rows_unchanged
    (df : DataFrame) (c : string) (p : Z) (s : Series) :
  getitem df c = inr (Column s) ->
  is_numeric_dtype (Column s) = true ->
  cells s = [] ->
  fits_c_int p = true ->
  sanitize df c p = (inr df, {| frame := df; records := [] |}).
Proof.
  intros Hg Hn He Hp.
  assert (Hr : Series_round s p = inr s).
  { destruct s as [[|]|[|]|[|]|[|]]; try discriminate; simpl; by rewrite ?Hp. }
  unfold sanitize.
  rewrite (sanitize_rounded c p {| frame := df; records := [] |} s s Hg Hn Hr).
  cbn [frame records]. by rewrite (setitem_same _ _ _ Hg).
Qed.

Lemma X5_column_without_rows_witness :
  let df := [("name", ObjectSeries []); ("price", Float64Series [])] in
  getitem df "price" = inr (Column (Float64Series []))
  /\ fits_c_int (-3) = true
  /\ sanitize df "price" (-3) = (inr df, {| frame := df; records := [] |}).
Proof.
  intros df. split; [reflexivity|]. split; [reflexivity|].
  exact (X5_column_without_rows_unchanged df "price" (-3) _
           eq_refl eq_refl eq_refl eq_refl).
Defined.

(** ** Calls in a row *)

Lemma filter_replace_other (df : DataFrame) (key other : string) (s' : Series) :
  key <> other ->
  List.filter (fun col => String.eqb (fst col) other)
    (map (fun col => if String.eqb (fst col) key then (key, s') else col) df)
  = List.filter (fun col => String.eqb (fst col) other) df.
Proof.
  intros Hne. induction df as [|[name s] df IH]; [done|].
  cbn [map List.filter fst].
  destruct (String.eqb_spec name key) as [->|Hnk]; cbn [fst].
  - destruct (String.eqb_spec key other); [done|]. exact IH.
  - destruct (String.eqb_spec name other); by rewrite IH.
Qed.

Lemma getitem_setitem_other (df : DataFrame) (key other : string)
    (s s' : Series) :
  key <> other ->
  getitem df key = inr (Column s) ->
  getitem (setitem df key (Column s')) other = getitem df other.
Proof.
  intros Hne Hg. unfold setitem. rewrite (getitem_Column_exists _ _ _ Hg).
  unfold getitem. by rewrite filter_replace_other.
Qed.

Lemma setitem_comm (df : DataFrame) (c1 c2 : string) (s1 s2 v1 v2 : Series) :
  c1 <> c2 ->
  getitem df c1 = inr (Column s1) ->
  getitem df c2 = inr (Column s2) ->
  setitem (setitem df c1 (Column v1)) c2 (Column v2)
  = setitem (setitem df c2 (Column v2)) c1 (Column v1).
Proof.
  intros Hne H1 H2.
  assert (H2' : getitem (setitem df c1 (Column v1)) c2 = inr (Column s2))
    by (by rewrite (getitem_setitem_other _ _ _ s1)).
  assert (H1' : getitem (setitem df c2 (Column v2)) c1 = inr (Column s1))
    by (by rewrite (getitem_setitem_other _ _ _ s2)).
  apply list_eq. intros i.
  rewrite (setitem_lookup _ _ s2 _ _ H2'), (setitem_lookup _ _ s1 _ _ H1),
    (setitem_lookup _ _ s1 _ _ H1'), (setitem_lookup _ _ s2 _ _ H2).
  destruct (df !! i) as [[name s0]|]; [|done]. cbn.
  destruct (String.eqb_spec name c1) as [->|N1]; cbn [fst].
  - destruct (String.eqb_spec c1 c2); [done|]. cbn [fst].
    by rewrite String.eqb_refl.
  - destruct (String.eqb_spec name c2) as [->|N2]; cbn [fst].
    + by destruct (String.eqb_spec c2 c1).
    + by destruct (String.eqb_spec name c1).
Qed.

(** X6: a second call on the table the first one returns, at the same
    precision, returns as well, with under the label the values rounded
    twice and every other column as in the original table. *)
Theorem X6_second_call_rounds_again
    (df : DataFrame) (c : string) (p : Z) (s : Series) :
  getitem df c = inr (Column s) ->
  is_numeric_dtype (Column s) = true ->
  fits_c_int p = true ->
  exists s'',
    sanitize_then df c p c p = inr (setitem df c (Column s''))
    /\ cells s'' = map (round_cell p) (map (round_cell p) (cells s)).
Proof.
  intros Hg Hn Hp. destruct (Series_round_fits s p Hp) as [s' Hr].
  destruct (sanitize_twice df c p s s' Hg Hn Hr) as (s'' & Hs & Hc).
  exists s''. split; [|exact Hc].
  unfold sanitize_then, sanitize at 1.
  rewrite (sanitize_rounded c p {| frame := df; records := [] |} s s' Hg Hn Hr).
  exact Hs.
Qed.

Lemma X6_second_call_witness :
  let s := Float64Series [of_decimal 1005 (-3); of_decimal 2675 (-3)] in
  let df := [("price", s); ("qty", Int64Series [1; 2])] in
  getitem df "price" = inr (Column s)
  /\ fits_c_int 2 = true
  /\ exists s'',
       sanitize_then df "price" 2 "price" 2
       = inr (setitem df "price" (Column s''))
       /\ cells s'' = map (round_cell 2) (map (round_cell 2) (cells s)).
Proof.
  intros s df. split; [reflexivity|]. split; [reflexivity|].
  exact (X6_second_call_rounds_again df "price" 2 s eq_refl eq_refl eq_refl).
Defined.

(** X7: sanitizing two different numeric columns, each at its precision,
    gives the same table in either order. *)
Theorem X7_sanitizing_two_columns_commutes
    (df : DataFrame) (c1 c2 : string) (p1 p2 : Z) (s1 s2 : Series) :
  c1 <> c2 ->
  getitem df c1 = inr (Column s1) ->
  getitem df c2 = inr (Column s2) ->
  is_numeric_dtype (Column s1) = true ->
  is_numeric_dtype (Column s2) = true ->
  fits_c_int p1 = true ->
  fits_c_int p2 = true ->
  exists df',
    sanitize_then df c1 p1 c2 p2 = inr df'
    /\ sanitize_then df c2 p2 c1 p1 = inr df'.
Proof.
  intros Hne H1 H2 N1 N2 P1 P2.
  destruct (Series_round_fits s1 p1 P1) as [v1 R1].
  destruct (Series_round_fits s2 p2 P2) as [v2 R2].
  exists (setitem (setitem df c1 (Column v1)) c2 (Column v2)).
  unfold sanitize_then, sanitize.
  rewrite (sanitize_rounded c1 p1 {| frame := df; records := [] |} s1 v1 H1 N1 R1).
  rewrite (sanitize_rounded c2 p2 {| frame := df; records := [] |} s2 v2 H2 N2 R2).
  cbn [fst]. split.
  - rewrite (sanitize_rounded c2 p2 _ s2 v2); [done| |done|done].
    cbn [frame]. by rewrite (getitem_setitem_other _ _ _ s1).
  - rewrite (sanitize_rounded c1 p1 _ s1 v1); [|cbn [frame]|done|done].
    + cbn [fst frame]. by rewrite (setitem_comm df c1 c2 s1 s2).
    + rewrite (getitem_setitem_other _ _ _ s2); [done| |done]. congruence.
Qed.

Lemma X7_two_columns_witness :
  let df := [("latitude", Float64Series [of_decimal 1234567 (-5)]);
             ("city", ObjectSeries [Some "Oslo"]);
             ("altitude", Int64Series [1234])] in
  "latitude" <> "altitude"
  /\ getitem df "latitude" = inr (Column (Float64Series [of_decimal 1234567 (-5)]))
  /\ getitem df "altitude" = inr (Column (Int64Series [1234]))
  /\ exists df',
       sanitize_then df "latitude" 2 "altitude" (-2) = inr df'
       /\ sanitize_then df "altitude" (-2) "latitude" 2 = inr df'.
Proof.
  intros df.
  assert (Hne : "latitude" <> "altitude") by discriminate.
  split; [exact Hne|]. split; [reflexivity|]. split; [reflexivity|].
  exact (X7_sanitizing_two_columns_commutes df "latitude" "altitude" 2 (-2)
           _ _ Hne eq_refl eq_refl eq_refl eq_refl eq_refl eq_refl).
Defined.

(** X17: a call that returns leaves under the label one column of the
    dtype it had, with as many rows: an integer column stays an integer
    column also when the precision is negative. *)
Theorem X17_dtype_and_length_are_kept
    (df df' : DataFrame) (c : string) (p : Z) (s : Series) :
  getitem df c = inr (Column s) ->
  fst (sanitize df c p) = inr df' ->
  exists s',
    getitem df' c = inr (Column s')
    /\ dtype_of s' = dtype_of s
    /\ length (cells s') = length (cells s).
Proof.
  unfold sanitize. intros Hg.
  destruct (sanitize_outcome c p {| frame := df; records := [] |})
    as [Hg'|sel Hg' Hn|s0 e Hg' Hn Hr|s0 s' Hg' Hn Hr];
    cbn [fst frame] in *; intros [= <-].
  assert (s0 = s) as -> by congruence.
  exists s'. split; [by apply (getitem_setitem _ _ s)|].
  split.
  - destruct s as [[|]|[|]| |]; simpl in Hr; try destruct (fits_c_int p);
      try discriminate; by injection Hr as <-.
  - rewrite (Series_round_cells _ _ _ Hr). apply length_map.
Qed.

Lemma X17_dtype_witness :
  let df := [("altitude", Int64Series [1234; 1250; -150])] in
  let df' := [("altitude", Int64Series [1200; 1200; -200])] in
  getitem df "altitude" = inr (Column (Int64Series [1234; 1250; -150]))
  /\ fst (sanitize df "altitude" (-2)) = inr df'
  /\ exists s',
       getitem df' "altitude" = inr (Column s')
       /\ dtype_of s' = dtype_of (Int64Series [1234; 1250; -150])
       /\ length (cells s') = length (cells (Int64Series [1234; 1250; -150])).
Proof.
  intros df df'.
  assert (Hs : fst (sanitize df "altitude" (-2)) = inr df')
    by (vm_compute; reflexivity).
  split; [reflexivity|]. split; [exact Hs|].
  exact (X17_dtype_and_length_are_kept df df' "altitude" (-2) _ eq_refl Hs).
Defined.

(** * Further properties of the program *)

(** ** Strings *)

Lemma lower_app (a b : string) : lower (a +:+ b) = lower a +:+ lower b.
Proof. induction a as [|ch a IH]; [done|]. simpl. by rewrite IH. Qed.

Lemma length_app_string (a b : string) :
  String.length (a +:+ b) = (String.length a + String.length b)%nat.
Proof. induction a as [|ch a IH]; [done|]. simpl. by rewrite IH. Qed.

Lemma substring_app_skip (a b : string) (n k : nat) :
  String.substring (String.length a + n) k (a +:+ b) = String.substring n k b.
Proof. induction a as [|ch a IH]; [done|]. exact IH. Qed.

Lemma substring_whole (b : string) :
  String.substring 0 (String.length b) b = b.
Proof. induction b as [|ch b IH]; [done|]. simpl. by rewrite IH. Qed.

Lemma endswith_app (a b : string) : endswith (a +:+ b) b = true.
Proof.
  unfold endswith. rewrite length_app_string.
  replace (String.length a + String.length b - String.length b)%nat
    with (String.length a + 0)%nat by lia.
  rewrite substring_app_skip, substring_whole, String.eqb_refl.
  rewrite andb_true_r. apply Nat.leb_le. lia.
Qed.

Lemma endswith_json_not_csv (a : string) : endswith (a +:+ ".json") ".csv" = false.
Proof.
  unfold endswith. rewrite length_app_string. cbn [String.length].
  replace (String.length a + 5 - 4)%nat with (String.length a + 1)%nat by lia.
  rewrite substring_app_skip. cbn. apply andb_false_r.
Qed.

Lemma resolved_by_extension (flag : option string) (stem ext : string) :
  truthy flag = false ->
  (lower ext = ".csv" -> resolved_format flag (stem +:+ ext) = Some CSV)
  /\ (lower ext = ".json" -> resolved_format flag (stem +:+ ext) = Some JSON).
Proof.
  intros Ht. unfold resolved_format. rewrite Ht, lower_app. split; intros ->.
  - by rewrite endswith_app.
  - by rewrite endswith_json_not_csv, endswith_app.
Qed.

(** ** Runs of [main] *)

Lemma main_handler_logs (args : Args) (e : exn) (w : World) :
  exists recs,
    snd (main_handler args e w)
    = {| files := files w; io := io w; log := log w ++ recs |}
    /\ (forall r, r ∈ recs -> fst r = ERROR).
Proof.
  destruct w as [fs evs lg].
  destruct e; cbn;
    try (eexists [_]; split; [reflexivity|];
         intros r Hr; apply list_elem_of_singleton in Hr; by subst r).
  exists []. split; [by rewrite app_nil_r|]. intros r Hr.
  by apply elem_of_nil in Hr.
Qed.

Lemma sanitize_returns_silently (df df' : DataFrame) (c : string) (p : Z) :
  fst (sanitize df c p) = inr df' -> records (snd (sanitize df c p)) = [].
Proof.
  unfold sanitize.
  by destruct (sanitize_outcome c p {| frame := df; records := [] |}).
Qed.

Section Runs.

Variables read_csv read_json : FS -> string -> exn + DataFrame.
Variables to_csv to_json : DataFrame -> string -> FS -> option exn * FS.

Lemma main_loader_raises (args : Args) (w : World) (fmt : format) (e : exn) :
  resolved_format (file_type args) (input_file args) = Some fmt ->
  reader read_csv read_json fmt (files w) (input_file args) = inl e ->
  main read_csv read_json to_csv to_json args w
  = (1, snd (main_handler args e
               {| files := files w;
                  io := io w ++ [LoaderCall fmt (input_file args)];
                  log := log w ++ inference_log args |})).
Proof.
  intros Hfmt Hread. unfold main.
  rewrite (main_body_resolved _ _ _ _ args w fmt Hfmt).
  unfold pipeline, bind, load. cbn [files io log]. by rewrite Hread.
Qed.

Lemma main_sanitizer_raises (args : Args) (w : World) (fmt : format)
    (df : DataFrame) (e : exn) :
  resolved_format (file_type args) (input_file args) = Some fmt ->
  reader read_csv read_json fmt (files w) (input_file args) = inr df ->
  fst (sanitize df (column_name args) (precision args)) = inl e ->
  main read_csv read_json to_csv to_json args w
  = (1, snd (main_handler args e
               {| files := files w;
                  io := io w ++ [LoaderCall fmt (input_file args)];
                  log := (log w ++ inference_log args)
                         ++ records (snd (sanitize df (column_name args)
                                            (precision args))) |})).
Proof.
  intros Hfmt Hread Hs. unfold main.
  rewrite (main_body_resolved _ _ _ _ args w fmt Hfmt).
  unfold pipeline, bind, load. cbn [files io log]. rewrite Hread.
  rewrite call_sanitize_eq. cbn [files io log]. by rewrite Hs.
Qed.

Lemma main_reaches_writer (args : Args) (w : World) (fmt : format)
    (df df' : DataFrame) :
  resolved_format (file_type args) (input_file args) = Some fmt ->
  reader read_csv read_json fmt (files w) (input_file args) = inr df ->
  fst (sanitize df (column_name args) (precision args)) = inr df' ->
  let w2 fs :=
    {| files := fs;
       io := io w ++ [LoaderCall fmt (input_file args);
                      WriterCall fmt (output_path args)];
       log := log w ++ inference_log args |} in
  main read_csv read_json to_csv to_json args w
  = match writer to_csv to_json fmt df' (output_path args) (files w) with
    | (Some e, fs) => (1, snd (main_handler args e (w2 fs)))
    | (None, fs) =>
        (0, {| files := fs; io := io (w2 fs);
               log := log (w2 fs) ++ [(INFO, completion_msg args)] |})
    end.
Proof.
  intros Hfmt Hread Hs w2. unfold main.
  rewrite (main_body_resolved _ _ _ _ args w fmt Hfmt).
  unfold pipeline, bind, load. cbn [files io log]. rewrite Hread.
  rewrite call_sanitize_eq. cbn [files io log]. rewrite Hs.
  rewrite (sanitize_returns_silently _ _ _ _ Hs), app_nil_r.
  unfold store. cbn [files io log].
  destruct (writer to_csv to_json fmt df' (output_path args) (files w))
    as [[e|] fs]; subst w2; cbn [files io log]; by rewrite <- app_assoc.
Qed.

(** Every run of [main] is one of five: the file type is not settled; the
    loader raises; the sanitizer raises; the writer raises; all return. *)
Lemma main_run_cases (args : Args) (w : World) :
  let run := main read_csv read_json to_csv to_json args w in
  let w1 fmt :=
    {| files := files w; io := io w ++ [LoaderCall fmt (input_file args)];
       log := log w ++ inference_log args |} in
  let w2 fmt fs :=
    {| files := fs;
       io := io w ++ [LoaderCall fmt (input_file args);
                      WriterCall fmt (output_path args)];
       log := log w ++ inference_log args |} in
  (exists msg,
      resolved_format (file_type args) (input_file args) = None
      /\ run = (1, snd (main_handler args (ValueError msg) w)))
  \/ (exists fmt e,
        resolved_format (file_type args) (input_file args) = Some fmt
        /\ reader read_csv read_json fmt (files w) (input_file args) = inl e
        /\ run = (1, snd (main_handler args e (w1 fmt))))
  \/ (exists fmt df e msg,
        resolved_format (file_type args) (input_file args) = Some fmt
        /\ reader read_csv read_json fmt (files w) (input_file args) = inr df
        /\ fst (sanitize df (column_name args) (precision args)) = inl e
        /\ run = (1, snd (main_handler args e
                            {| files := files w; io := io (w1 fmt);
                               log := log (w1 fmt) ++ [(ERROR, msg)] |})))
  \/ (exists fmt df df' e fs,
        resolved_format (file_type args) (input_file args) = Some fmt
        /\ reader read_csv read_json fmt (files w) (input_file args) = inr df
        /\ fst (sanitize df (column_name args) (precision args)) = inr df'
        /\ writer to_csv to_json fmt df' (output_path args) (files w)
           = (Some e, fs)
        /\ run = (1, snd (main_handler args e (w2 fmt fs))))
  \/ (exists fmt df df' fs,
        resolved_format (file_type args) (input_file args) = Some fmt
        /\ reader read_csv read_json fmt (files w) (input_file args) = inr df
        /\ fst (sanitize df (column_name args) (precision args)) = inr df'
        /\ writer to_csv to_json fmt df' (output_path args) (files w)
           = (None, fs)
        /\ run = (0, {| files := fs; io := io (w2 fmt fs);
                        log := log (w2 fmt fs)
                               ++ [(INFO, completion_msg args)] |})).
Proof.
  intros run w1 w2. subst run.
  destruct (resolved_format (file_type args) (input_file args)) as [fmt|] eqn:Hfmt.
  - right.
    destruct (reader read_csv read_json fmt (files w) (input_file args))
      as [e|df] eqn:Hread.
    { left. exists fmt, e. by rewrite (main_loader_raises args w fmt e). }
    right.
    destruct (fst (sanitize df (column_name args) (precision args)))
      as [e|df'] eqn:Hs.
    { left.
      pose proof (X1_like := sanitize_outcome (column_name args) (precision args)
                               {| frame := df; records := [] |}).
      assert (Hrec : exists msg,
                 records (snd (sanitize df (column_name args) (precision args)))
                 = [(ERROR, msg)]).
      { unfold sanitize in *.
        destruct X1_like; cbn [fst snd records] in *; try discriminate; eauto. }
      destruct Hrec as [msg Hrec]. exists fmt, df, e, msg.
      rewrite (main_sanitizer_raises args w fmt df e Hfmt Hread Hs), Hrec.
      done. }
    right.
    pose proof (main_reaches_writer args w fmt df df' Hfmt Hread Hs) as Hrun.
    cbv zeta in Hrun.
    destruct (writer to_csv to_json fmt df' (output_path args) (files w))
      as [[e|] fs] eqn:Hw.
    + left. exists fmt, df, df', e, fs. by rewrite Hrun.
    + right. exists fmt, df, df', fs. by rewrite Hrun.
  - left. destruct (main_body_unresolved read_csv read_json to_csv to_json
                      args w Hfmt) as [msg Hb].
    exists msg. split; [done|]. unfold main. by rewrite Hb.
Qed.

Lemma main_calls_loader_first (args : Args) (w : World) (fmt : format) :
  resolved_format (file_type args) (input_file args) = Some fmt ->
  exists evs recs,
    io (snd (main read_csv read_json to_csv to_json args w))
    = io w ++ LoaderCall fmt (input_file args) :: evs
    /\ log (snd (main read_csv read_json to_csv to_json args w))
       = log w ++ inference_log args ++ recs.
Proof.
  intros Hfmt.
  destruct (main_run_cases args w)
    as [(msg & Hn & _)
       |[(f & e & Hf & _ & ->)
        |[(f & df & e & msg & Hf & _ & _ & ->)
         |[(f & df & df' & e & fs & Hf & _ & _ & _ & ->)
          |(f & df & df' & fs & Hf & _ & _ & _ & ->)]]]];
    [congruence|..]; rewrite Hfmt in Hf; injection Hf as <-; cbn [snd].
  - destruct (main_handler_logs args e
                {| files := files w;
                   io := io w ++ [LoaderCall fmt (input_file args)];
                   log := log w ++ inference_log args |}) as (recs & -> & _).
    exists [], recs. cbn. by rewrite <- app_assoc.
  - match goal with |- context [main_handler args e ?w0] =>
      destruct (main_handler_logs args e w0) as (recs & -> & _) end.
    exists [], ([(ERROR, msg)] ++ recs). cbn. by rewrite <- !app_assoc.
  - match goal with |- context [main_handler args e ?w0] =>
      destruct (main_handler_logs args e w0) as (recs & -> & _) end.
    exists [WriterCall fmt (output_path args)], recs. cbn.
    by rewrite <- !app_assoc.
  - exists [WriterCall fmt (output_path args)], [(INFO, completion_msg args)].
    cbn. by rewrite <- !app_assoc.
Qed.

(** X8: [--file_type] decides the loader whatever the name of the input
    file: with [--file_type json] the JSON loader is called even on a name
    ending in [.csv], and the other way round. *)
Theorem X8_file_type_flag_overrides_extension
    (args : Args) (w : World) (fmt : format) :
  (file_type args = Some "csv" /\ fmt = CSV)
  \/ (file_type args = Some "json" /\ fmt = JSON) ->
  exists evs,
    io (snd (main read_csv read_json to_csv to_json args w))
    = io w ++ LoaderCall fmt (input_file args) :: evs.
Proof.
  intros Hflag.
  assert (Hfmt : resolved_format (file_type args) (input_file args) = Some fmt).
  { unfold resolved_format. by destruct Hflag as [[-> ->]|[-> ->]]. }
  destruct (main_calls_loader_first args w fmt Hfmt) as (evs & recs & Hio & _).
  by exists evs.
Qed.

(** X9: without [--file_type] the extension is read without regard to
    letter case: a name ending in [.csv], [.CSV], [.Csv], ... goes to the CSV
    loader, one ending in [.json] in any case to the JSON loader, and the
    inferred type is the first record logged. *)
Theorem X9_extension_is_case_insensitive
    (args : Args) (w : World) (stem ext ft : string) (fmt : format) :
  truthy (file_type args) = false ->
  input_file args = stem +:+ ext ->
  (lower ext = ".csv" /\ fmt = CSV /\ ft = "csv")
  \/ (lower ext = ".json" /\ fmt = JSON /\ ft = "json") ->
  exists evs recs,
    io (snd (main read_csv read_json to_csv to_json args w))
    = io w ++ LoaderCall fmt (input_file args) :: evs
    /\ log (snd (main read_csv read_json to_csv to_json args w))
       = log w ++ (INFO, "File type inferred: " +:+ ft) :: recs.
Proof.
  intros Ht Hname Hext.
  destruct (resolved_by_extension (file_type args) stem ext Ht) as [Hc Hj].
  assert (Hfmt : resolved_format (file_type args) (input_file args) = Some fmt).
  { rewrite Hname. destruct Hext as [(He & -> & _)|(He & -> & _)]; auto. }
  assert (Hinf : inference_log args = [(INFO, "File type inferred: " +:+ ft)]).
  { unfold inference_log. rewrite Ht, Hname, lower_app.
    destruct Hext as [(-> & _ & ->)|(-> & _ & ->)].
    - by rewrite endswith_app.
    - by rewrite endswith_json_not_csv. }
  destruct (main_calls_loader_first args w fmt Hfmt) as (evs & recs & Hio & Hlog).
  exists evs, recs. split; [done|]. by rewrite Hlog, Hinf.
Qed.

(** X10: when the loader raises, [main] exits with status 1 having called
    nothing else and touched no file; for a [FileNotFoundError] the record
    logged names the input file. *)
Theorem X10_loader_failure_exits_1
    (args : Args) (w : World) (fmt : format) (e : exn) :
  resolved_format (file_type args) (input_file args) = Some fmt ->
  reader read_csv read_json fmt (files w) (input_file args) = inl e ->
  let run := main read_csv read_json to_csv to_json args w in
  fst run = 1
  /\ files (snd run) = files w
  /\ io (snd run) = io w ++ [LoaderCall fmt (input_file args)]
  /\ (forall path, e = FileNotFoundError path ->
        log (snd run)
        = log w ++ inference_log args
          ++ [(ERROR, "Input file not found: " +:+ input_file args)]).
Proof.
  intros Hfmt Hread run. subst run.
  rewrite (main_loader_raises args w fmt e Hfmt Hread). cbn [fst snd].
  split; [done|].
  destruct (main_handler_logs args e
              {| files := files w;
                 io := io w ++ [LoaderCall fmt (input_file args)];
                 log := log w ++ inference_log args |}) as (recs & Hh & _).
  split; [by rewrite Hh|]. split; [by rewrite Hh|].
  intros path ->. cbn. by rewrite <- app_assoc.
Qed.

(** X11: a column name that the loaded table does not have is reported
    once: the sanitizer logs it and [main] exits with status 1 without
    logging it again. *)
Theorem X11_missing_column_is_logged_once
    (args : Args) (w : World) (fmt : format) (df : DataFrame) :
  resolved_format (file_type args) (input_file args) = Some fmt ->
  reader read_csv read_json fmt (files w) (input_file args) = inr df ->
  column_name args ∉ map fst df ->
  let run := main read_csv read_json to_csv to_json args w in
  fst run = 1
  /\ files (snd run) = files w
  /\ log (snd run)
     = log w ++ inference_log args
       ++ [(ERROR, not_found_msg (column_name args))].
Proof.
  intros Hfmt Hread Habs run. subst run.
  pose proof (sanitize_missing (column_name args) (precision args)
                {| frame := df; records := [] |}
                (getitem_absent _ _ Habs)) as Hs.
  fold (sanitize df (column_name args) (precision args)) in Hs.
  rewrite (main_sanitizer_raises args w fmt df (KeyError (column_name args))
             Hfmt Hread); [|by rewrite Hs].
  rewrite Hs. cbn. by rewrite <- app_assoc.
Qed.

(** X12: a column of object dtype is reported twice: by the sanitizer as
    an unexpected error, then by [main] as a type error, before the exit
    with status 1. *)
Theorem X12_non_numeric_column_is_logged_twice
    (args : Args) (w : World) (fmt : format) (df : DataFrame)
    (l : list (option string)) :
  resolved_format (file_type args) (input_file args) = Some fmt ->
  reader read_csv read_json fmt (files w) (input_file args) = inr df ->
  getitem df (column_name args) = inr (Column (ObjectSeries l)) ->
  let run := main read_csv read_json to_csv to_json args w in
  fst run = 1
  /\ files (snd run) = files w
  /\ log (snd run)
     = log w ++ inference_log args
       ++ [(ERROR, "An unexpected error occurred: "
                   +:+ not_numeric_msg (column_name args));
           (ERROR, "Type Error: " +:+ not_numeric_msg (column_name args))].
Proof.
  intros Hfmt Hread Hg run. subst run.
  pose proof (sanitize_not_numeric (column_name args) (precision args)
                {| frame := df; records := [] |} _ Hg eq_refl) as Hs.
  fold (sanitize df (column_name args) (precision args)) in Hs.
  rewrite (main_sanitizer_raises args w fmt df
             (TypeError (not_numeric_msg (column_name args))) Hfmt Hread);
    [|by rewrite Hs].
  rewrite Hs. cbn. by rewrite <- !app_assoc.
Qed.

(** X13: when the writer raises, [main] exits with status 1, the files are
    as the writer left them, and what is logged after the inference record
    are ERROR records only: the completion record is not logged. *)
Theorem X13_writer_failure_exits_1
    (args : Args) (w : World) (fmt : format) (df df' : DataFrame)
    (e : exn) (fs : FS) :
  resolved_format (file_type args) (input_file args) = Some fmt ->
  reader read_csv read_json fmt (files w) (input_file args) = inr df ->
  fst (sanitize df (column_name args) (precision args)) = inr df' ->
  writer to_csv to_json fmt df' (output_path args) (files w) = (Some e, fs) ->
  let run := main read_csv read_json to_csv to_json args w in
  fst run = 1
  /\ files (snd run) = fs
  /\ io (snd run)
     = io w ++ [LoaderCall fmt (input_file args);
                WriterCall fmt (output_path args)]
  /\ exists recs,
       log (snd run) = log w ++ inference_log args ++ recs
       /\ forall r, r ∈ recs -> fst r = ERROR.
Proof.
  intros Hfmt Hread Hs Hw run. subst run.
  rewrite (main_reaches_writer args w fmt df df' Hfmt Hread Hs). rewrite Hw.
  cbn [fst snd].
  match goal with |- context [main_handler args e ?w0] =>
    destruct (main_handler_logs args e w0) as (recs & -> & Hrecs) end.
  cbn [files io log]. repeat split; try done.
  exists recs. split; [by rewrite <- app_assoc|done].
Qed.

Lemma completion_not_inferred (args : Args) :
  (INFO, completion_msg args) ∉ inference_log args.
Proof.
  unfold inference_log, completion_msg. intros Hin.
  destruct (truthy (file_type args)); [by apply elem_of_nil in Hin|].
  destruct (endswith (lower (input_file args)) ".csv");
    apply list_elem_of_singleton in Hin; simpl in Hin; discriminate.
Qed.

Lemma completion_not_error (args : Args) (recs : list log_record) :
  (forall r, r ∈ recs -> fst r = ERROR) -> (INFO, completion_msg args) ∉ recs.
Proof. intros Hall Hin. by specialize (Hall _ Hin). Qed.

(** Once the command line is parsed, [main] exits with status 0 or 1; it
    only appends to the log; the calls it makes are none, or the loader
    alone, or the loader and then the writer, each once; and the completion
    record is logged, last, on the runs that exit with 0 and on no other. *)
Lemma parsed_run_shape (args : Args) (w : World) :
  let run := main read_csv read_json to_csv to_json args w in
  (fst run = 0 \/ fst run = 1)
  /\ exists evs recs,
       io (snd run) = io w ++ evs
       /\ log (snd run) = log w ++ recs
       /\ (evs = []
           \/ (exists fmt, evs = [LoaderCall fmt (input_file args)])
           \/ (exists fmt, evs = [LoaderCall fmt (input_file args);
                                  WriterCall fmt (output_path args)]))
       /\ (fst run = 0 ->
           (exists fmt, evs = [LoaderCall fmt (input_file args);
                               WriterCall fmt (output_path args)])
           /\ exists recs0, recs = recs0 ++ [(INFO, completion_msg args)])
       /\ (fst run = 1 -> (INFO, completion_msg args) ∉ recs).
Proof.
  intros run. subst run.
  destruct (main_run_cases args w)
    as [(msg & _ & ->)
       |[(f & e & _ & _ & ->)
        |[(f & df & e & msg & _ & _ & _ & ->)
         |[(f & df & df' & e & fs & _ & _ & _ & _ & ->)
          |(f & df & df' & fs & _ & _ & _ & _ & ->)]]]]; cbn [fst snd].
  - split; [by right|].
    destruct (main_handler_logs args (ValueError msg) w) as (recs & -> & Hr).
    exists [], recs. cbn [io log]. rewrite app_nil_r.
    repeat split; try done; [by left|]. intros _. by apply completion_not_error.
  - split; [by right|].
    match goal with |- context [main_handler args e ?w0] =>
      destruct (main_handler_logs args e w0) as (recs & -> & Hr) end.
    exists [LoaderCall f (input_file args)], (inference_log args ++ recs).
    cbn [io log]. rewrite <- app_assoc. repeat split; try done.
    + right. left. by exists f.
    + intros _ Hin. apply elem_of_app in Hin as [Hin|Hin].
      * by apply (completion_not_inferred args).
      * by apply (completion_not_error args recs).
  - split; [by right|].
    match goal with |- context [main_handler args e ?w0] =>
      destruct (main_handler_logs args e w0) as (recs & -> & Hr) end.
    exists [LoaderCall f (input_file args)],
      (inference_log args ++ [(ERROR, msg)] ++ recs).
    cbn [io log]. rewrite <- !app_assoc. repeat split; try done.
    + right. left. by exists f.
    + intros _ Hin. apply elem_of_app in Hin as [Hin|Hin].
      * by apply (completion_not_inferred args).
      * apply elem_of_cons in Hin as [Hin|Hin]; [discriminate|].
        by apply (completion_not_error args recs).
  - split; [by right|].
    match goal with |- context [main_handler args e ?w0] =>
      destruct (main_handler_logs args e w0) as (recs & -> & Hr) end.
    exists [LoaderCall f (input_file args); WriterCall f (output_path args)],
      (inference_log args ++ recs).
    cbn [io log]. rewrite <- app_assoc. repeat split; try done.
    + right. right. by exists f.
    + intros _ Hin. apply elem_of_app in Hin as [Hin|Hin].
      * by apply (completion_not_inferred args).
      * by apply (completion_not_error args recs).
  - split; [by left|].
    exists [LoaderCall f (input_file args); WriterCall f (output_path args)],
      (inference_log args ++ [(INFO, completion_msg args)]).
    cbn [io log]. rewrite <- app_assoc. repeat split; try done.
    + right. right. by exists f.
    + by exists f.
    + by exists (inference_log args).
Qed.

(** X14: when [parse_args] ends the process, [main] ends with the
    parser's status having logged nothing, called neither the loader nor
    the writer and touched no file.  When [parse_args] returns, [main]
    exits with status 0 or 1; it only appends to the log; the calls it
    makes are none, or the loader alone, or the loader and then the writer,
    each once; and the completion record is logged, last, on the runs that
    exit with 0 and on no other. *)
Theorem X14_shape_of_a_run
    (parse_args : list string -> parse_result) (argv : list string)
    (w : World) :
  let run := main_from_argv parse_args read_csv read_json to_csv to_json
               argv w in
  match parse_args argv with
  | Exited status => run = (status, w)
  | Parsed args =>
      (fst run = 0 \/ fst run = 1)
      /\ exists evs recs,
           io (snd run) = io w ++ evs
           /\ log (snd run) = log w ++ recs
           /\ (evs = []
               \/ (exists fmt, evs = [LoaderCall fmt (input_file args)])
               \/ (exists fmt, evs = [LoaderCall fmt (input_file args);
                                      WriterCall fmt (output_path args)]))
           /\ (fst run = 0 ->
               (exists fmt, evs = [LoaderCall fmt (input_file args);
                                   WriterCall fmt (output_path args)])
               /\ exists recs0, recs = recs0 ++ [(INFO, completion_msg args)])
           /\ (fst run = 1 -> (INFO, completion_msg args) ∉ recs)
  end.
Proof.
  intros run. subst run. unfold main_from_argv.
  destruct (parse_args argv) as [args|status]; [|reflexivity].
  exact (parsed_run_shape args w).
Qed.

(** X15: without [--output_file] (or with an empty one) a run that exits
    with status 0 has called the writer on the path of the input file: the
    input is overwritten with the sanitized table. *)
Theorem X15_output_defaults_to_the_input_path (args : Args) (w : World) :
  truthy (output_file args) = false ->
  fst (main read_csv read_json to_csv to_json args w) = 0 ->
  exists fmt df df',
    reader read_csv read_json fmt (files w) (input_file args) = inr df
    /\ fst (sanitize df (column_name args) (precision args)) = inr df'
    /\ io (snd (main read_csv read_json to_csv to_json args w))
       = io w ++ [LoaderCall fmt (input_file args);
                  WriterCall fmt (input_file args)]
    /\ files (snd (main read_csv read_json to_csv to_json args w))
       = snd (writer to_csv to_json fmt df' (input_file args) (files w)).
Proof.
  intros Ht.
  assert (Hout : output_path args = input_file args)
    by (unfold output_path; by rewrite Ht).
  destruct (main_run_cases args w)
    as [(msg & _ & ->)
       |[(f & e & _ & _ & ->)
        |[(f & df & e & msg & _ & _ & _ & ->)
         |[(f & df & df' & e & fs & _ & _ & _ & _ & ->)
          |(f & df & df' & fs & _ & Hread & Hs & Hw & ->)]]]]; cbn [fst snd];
    try discriminate.
  intros _. exists f, df, df'. rewrite Hout in *. cbn [io files].
  by rewrite Hw.
Qed.

(** X16: with writers that touch the path they are given and no other,
    every file but the one at the output path is after the run what it was
    before, whatever the outcome; so the input file is kept whenever the
    output path is another one. *)
Theorem X16_other_files_are_untouched (args : Args) (w : World) (q : string) :
  writes_only_its_path to_csv ->
  writes_only_its_path to_json ->
  q <> output_path args ->
  files (snd (main read_csv read_json to_csv to_json args w)) !! q
  = files w !! q.
Proof.
  intros Hcsv Hjson Hq.
  assert (Hloc : forall fmt df, snd (writer to_csv to_json fmt df
                                       (output_path args) (files w)) !! q
                                = files w !! q).
  { intros [] df; cbn; [by apply Hcsv|by apply Hjson]. }
  destruct (main_run_cases args w)
    as [(msg & _ & ->)
       |[(f & e & _ & _ & ->)
        |[(f & df & e & msg & _ & _ & _ & ->)
         |[(f & df & df' & e & fs & _ & _ & _ & Hw & ->)
          |(f & df & df' & fs & _ & _ & _ & Hw & ->)]]]]; cbn [snd];
    try (match goal with |- context [main_handler args ?e ?w0] =>
           destruct (main_handler_logs args e w0) as (recs & -> & _) end);
    cbn [files]; try done.
  - specialize (Hloc f df'). by rewrite Hw in Hloc.
  - specialize (Hloc f df'). by rewrite Hw in Hloc.
Qed.

End Runs.

(** ** The runs above on the sample files *)

Lemma X8_flag_overrides_witness :
  let args := {| input_file := "table.csv"; column_name := "latitude";
                 precision := 2; output_file := None;
                 file_type := Some "json" |} in
  ((file_type args = Some "csv" /\ JSON = CSV)
   \/ (file_type args = Some "json" /\ JSON = JSON))
  /\ exists evs,
       io (snd (main sample_read sample_read (sample_write "csv")
                  (sample_write "json") args sample_world))
       = io sample_world ++ LoaderCall JSON (input_file args) :: evs.
Proof.
  intros args.
  assert (H : (file_type args = Some "csv" /\ JSON = CSV)
              \/ (file_type args = Some "json" /\ JSON = JSON))
    by (right; split; reflexivity).
  split; [exact H|].
  exact (X8_file_type_flag_overrides_extension sample_read sample_read
           (sample_write "csv") (sample_write "json") args sample_world JSON H).
Defined.

Lemma X9_case_insensitive_witness :
  let args := {| input_file := "DATA.Json"; column_name := "latitude";
                 precision := 2; output_file := None; file_type := None |} in
  truthy (file_type args) = false
  /\ input_file args = "DATA" +:+ ".Json"
  /\ ((lower ".Json" = ".csv" /\ JSON = CSV /\ "json" = "csv")
      \/ (lower ".Json" = ".json" /\ JSON = JSON /\ "json" = "json"))
  /\ exists evs recs,
       io (snd (main sample_read sample_read (sample_write "csv")
                  (sample_write "json") args sample_world))
       = io sample_world ++ LoaderCall JSON (input_file args) :: evs
       /\ log (snd (main sample_read sample_read (sample_write "csv")
                      (sample_write "json") args sample_world))
          = log sample_world ++ (INFO, "File type inferred: " +:+ "json") :: recs.
Proof.
  intros args.
  assert (H : (lower ".Json" = ".csv" /\ JSON = CSV /\ "json" = "csv")
              \/ (lower ".Json" = ".json" /\ JSON = JSON /\ "json" = "json"))
    by (right; repeat split; reflexivity).
  split; [reflexivity|]. split; [reflexivity|]. split; [exact H|].
  exact (X9_extension_is_case_insensitive sample_read sample_read
           (sample_write "csv") (sample_write "json") args sample_world
           "DATA" ".Json" "json" JSON eq_refl eq_refl H).
Defined.

Lemma X10_loader_failure_witness :
  let args := {| input_file := "missing.csv"; column_name := "latitude";
                 precision := 2; output_file := None; file_type := None |} in
  let run := main sample_read sample_read (sample_write "csv")
               (sample_write "json") args sample_world in
  resolved_format (file_type args) (input_file args) = Some CSV
  /\ reader sample_read sample_read CSV (files sample_world) (input_file args)
     = inl (FileNotFoundError "missing.csv")
  /\ fst run = 1
  /\ files (snd run) = files sample_world
  /\ io (snd run) = io sample_world ++ [LoaderCall CSV (input_file args)]
  /\ (forall path, FileNotFoundError "missing.csv" = FileNotFoundError path ->
        log (snd run)
        = log sample_world ++ inference_log args
          ++ [(ERROR, "Input file not found: " +:+ input_file args)]).
Proof.
  intros args run.
  assert (Hfmt : resolved_format (file_type args) (input_file args) = Some CSV)
    by (vm_compute; reflexivity).
  assert (Hread : reader sample_read sample_read CSV (files sample_world)
                    (input_file args) = inl (FileNotFoundError "missing.csv"))
    by (vm_compute; reflexivity).
  split; [exact Hfmt|]. split; [exact Hread|].
  exact (X10_loader_failure_exits_1 sample_read sample_read
           (sample_write "csv") (sample_write "json") args sample_world CSV _
           Hfmt Hread).
Defined.

Lemma X11_missing_column_witness :
  let args := {| input_file := "data.json"; column_name := "weight";
                 precision := 2; output_file := None; file_type := None |} in
  let run := main sample_read sample_read (sample_write "csv")
               (sample_write "json") args sample_world in
  resolved_format (file_type args) (input_file args) = Some JSON
  /\ reader sample_read sample_read JSON (files sample_world) (input_file args)
     = inr sample_table
  /\ (column_name args ∉ map fst sample_table)
  /\ fst run = 1
  /\ files (snd run) = files sample_world
  /\ log (snd run)
     = log sample_world ++ inference_log args
       ++ [(ERROR, not_found_msg (column_name args))].
Proof.
  intros args run.
  assert (Hfmt : resolved_format (file_type args) (input_file args) = Some JSON)
    by (vm_compute; reflexivity).
  assert (Hread : reader sample_read sample_read JSON (files sample_world)
                    (input_file args) = inr sample_table)
    by (vm_compute; reflexivity).
  assert (Habs : column_name args ∉ map fst sample_table).
  { simpl. intros Hin.
    repeat (apply elem_of_cons in Hin as [Hin|Hin]; [discriminate|]).
    by apply elem_of_nil in Hin. }
  split; [exact Hfmt|]. split; [exact Hread|]. split; [exact Habs|].
  exact (X11_missing_column_is_logged_once sample_read sample_read
           (sample_write "csv") (sample_write "json") args sample_world JSON
           sample_table Hfmt Hread Habs).
Defined.

Lemma X12_non_numeric_column_witness :
  let args := {| input_file := "data.json"; column_name := "name";
                 precision := 2; output_file := None; file_type := None |} in
  let run := main sample_read sample_read (sample_write "csv")
               (sample_write "json") args sample_world in
  resolved_format (file_type args) (input_file args) = Some JSON
  /\ reader sample_read sample_read JSON (files sample_world) (input_file args)
     = inr sample_table
  /\ getitem sample_table (column_name args)
     = inr (Column (ObjectSeries [Some "Oslo"; Some "Lima"]))
  /\ fst run = 1
  /\ files (snd run) = files sample_world
  /\ log (snd run)
     = log sample_world ++ inference_log args
       ++ [(ERROR, "An unexpected error occurred: "
                   +:+ not_numeric_msg (column_name args));
           (ERROR, "Type Error: " +:+ not_numeric_msg (column_name args))].
Proof.
  intros args run.
  assert (Hfmt : resolved_format (file_type args) (input_file args) = Some JSON)
    by (vm_compute; reflexivity).
  assert (Hread : reader sample_read sample_read JSON (files sample_world)
                    (input_file args) = inr sample_table)
    by (vm_compute; reflexivity).
  split; [exact Hfmt|]. split; [exact Hread|]. split; [reflexivity|].
  exact (X12_non_numeric_column_is_logged_twice sample_read sample_read
           (sample_write "csv") (sample_write "json") args sample_world JSON
           sample_table _ Hfmt Hread eq_refl).
Defined.

Lemma X13_writer_failure_witness :
  let args := {| input_file := "data.json"; column_name := "latitude";
                 precision := 1; output_file := Some "out.json";
                 file_type := None |} in
  let run := main sample_read sample_read sample_failing_write
               sample_failing_write args sample_world in
  let df' := [("name", ObjectSeries [Some "Oslo"; Some "Lima"]);
              ("latitude", Float64Series [of_decimal 599 (-1);
                                          of_decimal (-12) 0])] in
  resolved_format (file_type args) (input_file args) = Some JSON
  /\ reader sample_read sample_read JSON (files sample_world) (input_file args)
     = inr sample_table
  /\ fst (sanitize sample_table (column_name args) (precision args)) = inr df'
  /\ writer sample_failing_write sample_failing_write JSON df'
       (output_path args) (files sample_world)
     = (Some (OtherError "No space left on device"), files sample_world)
  /\ fst run = 1
  /\ files (snd run) = files sample_world
  /\ io (snd run)
     = io sample_world ++ [LoaderCall JSON (input_file args);
                           WriterCall JSON (output_path args)]
  /\ exists recs,
       log (snd run) = log sample_world ++ inference_log args ++ recs
       /\ forall r, r ∈ recs -> fst r = ERROR.
Proof.
  intros args run df'.
  assert (Hfmt : resolved_format (file_type args) (input_file args) = Some JSON)
    by (vm_compute; reflexivity).
  assert (Hread : reader sample_read sample_read JSON (files sample_world)
                    (input_file args) = inr sample_table)
    by (vm_compute; reflexivity).
  assert (Hs : fst (sanitize sample_table (column_name args) (precision args))
               = inr df') by (vm_compute; reflexivity).
  split; [exact Hfmt|]. split; [exact Hread|]. split; [exact Hs|].
  split; [reflexivity|].
  exact (X13_writer_failure_exits_1 sample_read sample_read
           sample_failing_write sample_failing_write args sample_world JSON
           sample_table df' _ _ Hfmt Hread Hs eq_refl).
Defined.

Lemma X15_output_defaults_witness :
  let args := {| input_file := "data.json"; column_name := "latitude";
                 precision := 1; output_file := None; file_type := None |} in
  let run := main sample_read sample_read (sample_write "csv")
               (sample_write "json") args sample_world in
  truthy (output_file args) = false
  /\ fst run = 0
  /\ exists fmt df df',
       reader sample_read sample_read fmt (files sample_world) (input_file args)
       = inr df
       /\ fst (sanitize df (column_name args) (precision args)) = inr df'
       /\ io (snd run)
          = io sample_world ++ [LoaderCall fmt (input_file args);
                                WriterCall fmt (input_file args)]
       /\ files (snd run)
          = snd (writer (sample_write "csv") (sample_write "json") fmt df'
                   (input_file args) (files sample_world)).
Proof.
  intros args run.
  assert (H0 : fst run = 0) by (vm_compute; reflexivity).
  split; [reflexivity|]. split; [exact H0|].
  exact (X15_output_defaults_to_the_input_path sample_read sample_read
           (sample_write "csv") (sample_write "json") args sample_world
           eq_refl H0).
Defined.

Lemma sample_write_is_local (content : string) :
  writes_only_its_path (sample_write content).
Proof.
  intros df path fs q Hq. cbn. apply lookup_insert_ne. congruence.
Qed.

Lemma X16_other_files_witness :
  let args := {| input_file := "data.json"; column_name := "latitude";
                 precision := 1; output_file := Some "out.json";
                 file_type := None |} in
  let run := main sample_read sample_read (sample_write "csv")
               (sample_write "json") args sample_world in
  writes_only_its_path (sample_write "csv")
  /\ writes_only_its_path (sample_write "json")
  /\ "data.json" <> output_path args
  /\ files (snd run) !! "data.json" = files sample_world !! "data.json".
Proof.
  intros args run.
  assert (Hq : "data.json" <> output_path args) by discriminate.
  split; [apply sample_write_is_local|].
  split; [apply sample_write_is_local|]. split; [exact Hq|].
  exact (X16_other_files_are_untouched sample_read sample_read
           (sample_write "csv") (sample_write "json") args sample_world
           "data.json" (sample_write_is_local "csv")
           (sample_write_is_local "json") Hq).
Defined.

(** ** The writer of the input's type, and the parser, on sample runs *)

Lemma C10_output_format_witness :
  let args := {| input_file := "data.json"; column_name := "latitude";
                 precision := 1; output_file := Some "out.csv";
                 file_type := None |} in
  let run := main sample_read sample_read (sample_write "csv")
               (sample_write "json") args sample_world in
  let df' := [("name", ObjectSeries [Some "Oslo"; Some "Lima"]);
              ("latitude", Float64Series [of_decimal 599 (-1);
                                          of_decimal (-12) 0])] in
  resolved_format (file_type args) (input_file args) = Some JSON
  /\ reader sample_read sample_read JSON (files sample_world) (input_file args)
     = inr sample_table
  /\ fst (sanitize sample_table (column_name args) (precision args)) = inr df'
  /\ WriterCall JSON "out.csv" ∈ io (snd run)
  /\ io (snd run) = [LoaderCall JSON "data.json"; WriterCall JSON "out.csv"]
  /\ files (snd run) !! "out.csv" = Some "json".
Proof.
  intros args run df'.
  assert (Hfmt : resolved_format (file_type args) (input_file args) = Some JSON)
    by (vm_compute; reflexivity).
  assert (Hread : reader sample_read sample_read JSON (files sample_world)
                    (input_file args) = inr sample_table)
    by (vm_compute; reflexivity).
  assert (Hs : fst (sanitize sample_table (column_name args) (precision args))
               = inr df') by (vm_compute; reflexivity).
  split; [exact Hfmt|]. split; [exact Hread|]. split; [exact Hs|].
  destruct (C10_output_format_follows_input_type sample_read sample_read
              (sample_write "csv") (sample_write "json") args sample_world)
    as (_ & _ & Hw).
  destruct (Hw JSON sample_table df' Hfmt Hread Hs) as (Hin & Hio & Hfiles).
  split; [exact Hin|]. split; [exact Hio|].
  vm_compute. reflexivity.
Defined.

Example parser_exit_ends_the_run :
  main_from_argv sample_parse_args sample_read sample_read
    (sample_write "csv") (sample_write "json") ["data.json"] sample_world
  = (2, sample_world).
Proof. reflexivity. Qed.

Example parsed_run_on_the_sample :
  let run := main_from_argv sample_parse_args sample_read sample_read
               (sample_write "csv") (sample_write "json")
               ["data.json"; "latitude"] sample_world in
  fst run = 0
  /\ io (snd run) = [LoaderCall JSON "data.json"; WriterCall JSON "data.json"]
  /\ log (snd run)
     = [(INFO, "File type inferred: json");
        (INFO, "Data sanitization complete. Output written to data.json")].
Proof. by vm_compute. Qed.
